(** * traefik-auth-converter: the Authorization header converter

    A shallow embedding of [authconverter.go] (the extended variant with the
    [decoded] token source and configurable source/target schemes, and, in
    module [V1], the earlier variant with fixed Basic/Bearer schemes),
    together with the parts of Go's [strings], [encoding/base64] and
    [net/http] packages that the converter calls.

    Go strings are byte sequences: they are modelled by [string], whose
    characters are the 8-bit [ascii]; the conversions [[]byte(s)] and
    [string(b)] are therefore the identity. *)

From Stdlib Require Import ZArith Ascii String List Lia Bool.
From stdpp Require Import base option gmap strings.

Local Open Scope Z_scope.

#[local] Arguments String.append !_ _ : simpl nomatch.

(** ** Bytes and machine integers *)

(** [uint(b)] for a byte [b]. *)
Definition uint (b : ascii) : Z := Z.of_N (N_of_ascii b).

(** The conversion [byte(x)] of an unsigned integer: truncation to 8 bits. *)
Definition byte_of (x : Z) : ascii := ascii_of_N (Z.to_N (x mod 256)).

(** [len(s)] *)
Definition len (s : string) : Z := Z.of_nat (String.length s).

(** The slices [s[:m]] and [s[m:]] for [0 <= m <= len(s)]. *)
Definition slice_to (s : string) (m : Z) : string :=
  String.substring 0 (Z.to_nat m) s.

Definition slice_from (s : string) (m : Z) : string :=
  String.substring (Z.to_nat m) (String.length s - Z.to_nat m) s.

(** Occurrence of a byte in a string (used to state claims, not by the code). *)
Fixpoint has_byte (c : ascii) (s : string) : bool :=
  match s with
  | EmptyString => false
  | String x r => Ascii.eqb x c || has_byte c r
  end.

(** ** Package [strings] *)

Module strings.

(** [strings.IndexByte(s, c)]: the index of the first [c] in [s], or -1. *)
Fixpoint IndexByte (s : string) (c : ascii) : Z :=
  match s with
  | EmptyString => -1
  | String x r =>
      if Ascii.eqb x c then 0
      else let m := IndexByte r c in if m <? 0 then -1 else m + 1
  end.

(** [strings.Count(s, sep)] for a one-byte separator. *)
Fixpoint Count (s : string) (c : ascii) : Z :=
  match s with
  | EmptyString => 0
  | String x r => (if Ascii.eqb x c then 1 else 0) + Count r c
  end.

(** The loop of [genSplit]: [k] is the number of iterations left
    ([n - i] in the source); each one cuts [s] at the next separator. *)
Fixpoint genSplit_loop (k : nat) (s : string) (sep : ascii) : list string :=
  match k with
  | O => [s]
  | S k' =>
      let m := IndexByte s sep in
      if m <? 0 then [s]
      else slice_to s m :: genSplit_loop k' (slice_from s (m + 1)) sep
  end.

(** [strings.SplitN(s, sep, n)] for a separator [sep] of one byte (the
    converter only splits on [" "] and [":"]): [genSplit(s, sep, 0, n)]. *)
Definition SplitN (s : string) (sep : ascii) (n : Z) : list string :=
  if n =? 0 then []
  else
    let n := if n <? 0 then Count s sep + 1 else n in
    let n := if n >? len s + 1 then len s + 1 else n in
    genSplit_loop (Z.to_nat (n - 1)) s sep.

End strings.

(** ** Package [encoding/base64]: [StdEncoding] *)

Module base64.

(** The standard alphabet of RFC 4648 and the padding character. *)
Definition encodeStd : string :=
  "ABCDEFGHIJKLMNOPQRSTUVWXYZabcdefghijklmnopqrstuvwxyz0123456789+/".

Definition StdPadding : ascii := "="%char.

(** [enc.encode[v]] *)
Definition encode (v : Z) : ascii :=
  match String.get (Z.to_nat v) encodeStd with
  | Some c => c
  | None => zero
  end.

(** [enc.decodeMap], built as [NewEncoding] does: every entry is 0xFF,
    then entry [encoder[i]] is set to [i]. *)
Fixpoint fill_decodeMap (encoder : string) (i : Z) (m : ascii -> Z)
  : ascii -> Z :=
  match encoder with
  | EmptyString => m
  | String c r =>
      fill_decodeMap r (i + 1) (fun x => if Ascii.eqb x c then i else m x)
  end.

Definition decodeMap : ascii -> Z :=
  fill_decodeMap encodeStd 0 (fun _ => 255).

(** [Encoding.Encode], returned as a string by [EncodeToString]: full
    groups of three bytes, then the remaining one or two bytes, padded. *)
Fixpoint Encode (src : string) : string :=
  match src with
  | String a (String b (String c rest)) =>
      let val :=
        Z.lor (Z.lor (Z.shiftl (uint a) 16) (Z.shiftl (uint b) 8)) (uint c) in
      String (encode (Z.land (Z.shiftr val 18) 63))
        (String (encode (Z.land (Z.shiftr val 12) 63))
           (String (encode (Z.land (Z.shiftr val 6) 63))
              (String (encode (Z.land val 63)) (Encode rest))))
  | String a (String b EmptyString) =>
      let val := Z.lor (Z.shiftl (uint a) 16) (Z.shiftl (uint b) 8) in
      String (encode (Z.land (Z.shiftr val 18) 63))
        (String (encode (Z.land (Z.shiftr val 12) 63))
           (String (encode (Z.land (Z.shiftr val 6) 63))
              (String StdPadding EmptyString)))
  | String a EmptyString =>
      let val := Z.shiftl (uint a) 16 in
      String (encode (Z.land (Z.shiftr val 18) 63))
        (String (encode (Z.land (Z.shiftr val 12) 63))
           (String StdPadding (String StdPadding EmptyString)))
  | EmptyString => EmptyString
  end.

Definition EncodeToString (src : string) : string := Encode src.

(** [CorruptInputError]; the byte offset it carries is dropped, the
    converter only tests the error against [nil]. *)
Inductive CorruptInputError : Set := CorruptInput.

Definition is_newline (c : ascii) : bool :=
  Ascii.eqb c "010"%char || Ascii.eqb c "013"%char.

(** The loops [for si < len(src) && (src[si] == '\n' || src[si] == '\r')]. *)
Fixpoint skip_newlines (src : string) : string :=
  match src with
  | EmptyString => EmptyString
  | String c r => if is_newline c then skip_newlines r else src
  end.

(** The end of [decodeQuantum]: the 6-bit values in [dbuf] (missing ones
    are zero) are assembled and the first [dlen - 1] bytes are written. *)
Definition quantum_bytes (dbuf : list Z) (dlen : nat) : string :=
  let val :=
    Z.lor (Z.lor (Z.lor (Z.shiftl (nth 0 dbuf 0) 18)
                        (Z.shiftl (nth 1 dbuf 0) 12))
                 (Z.shiftl (nth 2 dbuf 0) 6))
          (nth 3 dbuf 0) in
  let b2 := byte_of (Z.shiftr val 0) in
  let b1 := byte_of (Z.shiftr val 8) in
  let b0 := byte_of (Z.shiftr val 16) in
  match dlen with
  | 4%nat => String b0 (String b1 (String b2 EmptyString))
  | 3%nat => String b0 (String b1 EmptyString)
  | 2%nat => String b0 EmptyString
  | _ => EmptyString
  end.

(** The part of [decodeQuantum] that runs once a padding character has
    been read at position [j = len dbuf] of the quantum; [rest] is the
    input after that character. *)
Definition decodePadding (dbuf : list Z) (rest : string)
  : string * string * option CorruptInputError :=
  let j := List.length dbuf in
  match j with
  | 0%nat | 1%nat => (rest, EmptyString, Some CorruptInput)
  | _ =>
      (* a second padding character is expected when [j = 2] *)
      let after :=
        if (j =? 2)%nat then
          match skip_newlines rest with
          | EmptyString => None
          | String c2 r2 =>
              if Ascii.eqb c2 StdPadding then Some r2 else None
          end
        else Some rest in
      match after with
      | None => (EmptyString, EmptyString, Some CorruptInput)
      | Some r =>
          let r' := skip_newlines r in
          (r', quantum_bytes dbuf j,
           match r' with
           | EmptyString => None
           | String _ _ => Some CorruptInput   (* trailing garbage *)
           end)
      end
  end.

(** [decodeQuantum] for the padded, non-strict [StdEncoding], reading from
    the rest [src] of the input.  [dbuf] holds the values read so far
    (its length is the loop counter [j]).  The result is the unread rest
    of the input, the bytes written and the error. *)
Fixpoint decodeQuantum_from (dbuf : list Z) (src : string) {struct src}
  : string * string * option CorruptInputError :=
  let j := List.length dbuf in
  match src with
  | EmptyString =>
      match j with
      | O => (EmptyString, EmptyString, None)
      | _ => (EmptyString, EmptyString, Some CorruptInput)
      end
  | String c rest =>
      let out := decodeMap c in
      if negb (out =? 255) then
        if (j =? 3)%nat then (rest, quantum_bytes (dbuf ++ [out]) 4, None)
        else decodeQuantum_from (dbuf ++ [out]) rest
      else if is_newline c then decodeQuantum_from dbuf rest
      else if negb (Ascii.eqb c StdPadding) then
        (rest, EmptyString, Some CorruptInput)
      else decodePadding dbuf rest
  end.

Definition decodeQuantum (src : string) := decodeQuantum_from [] src.

(** [Encoding.Decode]: quanta are decoded until the input is used up or
    one of them fails.  Each call of [decodeQuantum] on a non-empty input
    reads at least one byte, so [fuel = len(src)] iterations are enough
    (lemma [Decode_loop_fuel] below). *)
Fixpoint Decode_loop (fuel : nat) (src : string)
  : string * option CorruptInputError :=
  match src, fuel with
  | EmptyString, _ => (EmptyString, None)
  | _, O => (EmptyString, Some CorruptInput)
  | _, S fuel' =>
      let '(rest, out, err) := decodeQuantum src in
      match err with
      | Some e => (out, Some e)
      | None =>
          let '(out', err') := Decode_loop fuel' rest in
          (out +:+ out', err')
      end
  end.

(** [Encoding.DecodeString]: the decoded bytes [dbuf[:n]] and the error. *)
Definition DecodeString (s : string) : string * option CorruptInputError :=
  Decode_loop (String.length s) s.

End base64.

(** ** Package [errors] and [net/http] *)

(** An error value made by [errors.New]; Go's [nil] error is [None] of
    [option error]. *)
Inductive error : Set := errors_New (text : string).

Module http.

(** [http.Header]: canonical header name to its list of values. *)
Abbreviation Header := (gmap string (list string)).

(** [Header.Get(key)] for a key in canonical form: the first value, or the
    empty string when there is none. *)
Definition Get (h : Header) (key : string) : string :=
  match h !! key with
  | Some (v :: _) => v
  | _ => ""
  end.

(** [Header.Set(key, value)] for a key in canonical form: the values of
    [key] are replaced by the single [value]. *)
Definition Set_ (h : Header) (key value : string) : Header :=
  <[key := [value]]> h.

(** An [http.Handler] of the chain, other than the converter itself: it is
    external to the converter and only known by its identity. *)
Record Handler : Set := HandlerFunc { handler_id : nat }.

(** One call [h.ServeHTTP(rw, req)], with the response and request headers
    the handler is given. *)
Record Call : Type := Call_ServeHTTP {
  callee : Handler;
  call_rw : Header;
  call_req : Header
}.

(** What one run of the converter's [ServeHTTP] can read and change: the
    header of the request [req], the header of the response writer [rw],
    and the calls made to other handlers, oldest first. *)
Record World : Type := mkWorld {
  req_Header : Header;
  rw_Header : Header;
  calls : list Call
}.

Definition ServeHTTP (h : Handler) (w : World) : World :=
  {| req_Header := req_Header w;
     rw_Header := rw_Header w;
     calls := calls w ++ [Call_ServeHTTP h (rw_Header w) (req_Header w)] |}.

End http.

(** ** The converter (extended variant) *)

Definition TokenSource := string.
Definition AuthType := string.

Definition password : TokenSource := "password".
Definition username : TokenSource := "username".
Definition unchanged : TokenSource := "full".
Definition decoded : TokenSource := "decoded".
Definition combined : TokenSource := "combined".

Definition HeaderName : string := "Authorization".

Definition basic : AuthType := "Basic".
Definition bearer : AuthType := "Bearer".
Definition digest : AuthType := "Digest".

Record Config : Set := mkConfig {
  tokenSource : TokenSource;
  encodeToken : bool;
  sourceType : AuthType;
  targetType : AuthType
}.

Record AuthConverter : Set := mkAuthConverter {
  next : http.Handler;
  config : Config
}.

(** The error values of [getToken], under the names the specification gives
    to the failure kinds. *)
Definition MalformedHeader : error :=
  errors_New "invalid authorization header contents".
Definition SchemeMismatch : error := errors_New "invalid authorization type".
Definition DecodeError : error := errors_New "Base64 decoding failed".
Definition UnsupportedSourceForSplit : error := errors_New "partial ".
Definition MalformedCredential : error :=
  errors_New "invalid value in authorization header".
Definition InvalidTokenSource : error := errors_New "invalid token source".

(** [getToken]: the token and the error ([None] for [nil]). *)
Definition getToken (e : AuthConverter) (header : string)
  : string * option error :=
  match strings.SplitN header " "%char 2 with
  | [scheme; sourceTokenBase64] =>
      if negb (String.eqb scheme (sourceType (config e))) then
        ("", Some (errors_New "invalid authorization type"))
      else if String.eqb (tokenSource (config e)) unchanged then
        (sourceTokenBase64, None)
      else
        match base64.DecodeString sourceTokenBase64 with
        | (_, Some _) => ("", Some (errors_New "Base64 decoding failed"))
        | (sourceTokenDecoded, None) =>
            if String.eqb (tokenSource (config e)) decoded then
              (sourceTokenDecoded, None)
            else if negb (String.eqb (sourceType (config e)) basic) then
              ("", Some (errors_New "partial "))
            else
              match strings.SplitN sourceTokenDecoded ":"%char 2 with
              | [part0; part1] =>
                  if String.eqb (tokenSource (config e)) username then
                    (part0, None)
                  else if String.eqb (tokenSource (config e)) password then
                    (part1, None)
                  else if String.eqb (tokenSource (config e)) combined then
                    (part0 +:+ part1, None)
                  else ("", Some (errors_New "invalid token source"))
              | _ =>
                  ("", Some (errors_New "invalid value in authorization header"))
              end
        end
  | _ => ("", Some (errors_New "invalid authorization header contents"))
  end.

(** [ServeHTTP]: the entry point called for each request. *)
Definition ServeHTTP (e : AuthConverter) (w : http.World) : http.World :=
  let '(token, err) := getToken e (http.Get (http.req_Header w) HeaderName) in
  let w :=
    match err with
    | None =>
        let token :=
          if encodeToken (config e) then base64.EncodeToString token
          else token in
        let authorization := targetType (config e) +:+ " " +:+ token in
        {| http.req_Header := http.Set_ (http.req_Header w) HeaderName authorization;
           http.rw_Header := http.rw_Header w;
           http.calls := http.calls w |}
    | Some _ => w
    end in
  http.ServeHTTP (next e) w.

Definition CreateConfig : Config :=
  {| tokenSource := combined;
     encodeToken := false;
     sourceType := basic;
     targetType := bearer |}.

(** The map literal of [New]; a key that is absent reads as [false]. *)
Definition validConfig : gmap string bool :=
  <[username := true]> (<[password := true]> (<[unchanged := true]>
    (<[combined := true]> (<[decoded := true]> ∅)))).

(** [New]: the handler ([None] for [nil]) and the error. *)
Definition New (next : http.Handler) (config : Config)
  : option AuthConverter * option error :=
  if negb (default false (validConfig !! tokenSource config)) then
    (None, Some (errors_New "invalid token source"))
  else
    (Some {| next := next; config := config |}, None).

(** ** The converter (first variant: four token sources, Basic to Bearer) *)

Module V1.

Record Config : Set := mkConfig {
  tokenSource : TokenSource;
  encodeToken : bool
}.

Record AuthConverter : Set := mkAuthConverter {
  next : http.Handler;
  ac_tokenSource : TokenSource;
  ac_encodeToken : bool
}.

Definition getToken (e : AuthConverter) (header : string)
  : string * option error :=
  match strings.SplitN header " "%char 2 with
  | [scheme; basicTokenBase64] =>
      if negb (String.eqb scheme basic) then
        ("", Some (errors_New "invalid authorization type"))
      else if String.eqb (ac_tokenSource e) unchanged then
        (basicTokenBase64, None)
      else
        match base64.DecodeString basicTokenBase64 with
        | (_, Some _) => ("", Some (errors_New "Base64 decoding failed"))
        | (basicTokenDecoded, None) =>
            match strings.SplitN basicTokenDecoded ":"%char 2 with
            | [part0; part1] =>
                if String.eqb (ac_tokenSource e) username then
                  (part0, None)
                else if String.eqb (ac_tokenSource e) password then
                  (part1, None)
                else if String.eqb (ac_tokenSource e) combined then
                  (part0 +:+ part1, None)
                else ("", Some (errors_New "invalid token source"))
            | _ =>
                ("", Some (errors_New "invalid value in authorization header"))
            end
        end
  | _ => ("", Some (errors_New "invalid authorization header contents"))
  end.

(** This variant sets the header of the response writer. *)
Definition ServeHTTP (e : AuthConverter) (w : http.World) : http.World :=
  let '(token, err) := getToken e (http.Get (http.req_Header w) HeaderName) in
  let w :=
    match err with
    | None =>
        let token :=
          if ac_encodeToken e then base64.EncodeToString token else token in
        let authorization := "Bearer " +:+ token in
        {| http.req_Header := http.req_Header w;
           http.rw_Header := http.Set_ (http.rw_Header w) HeaderName authorization;
           http.calls := http.calls w |}
    | Some _ => w
    end in
  http.ServeHTTP (next e) w.

Definition validConfig : gmap string bool :=
  <[username := true]> (<[password := true]> (<[unchanged := true]>
    (<[combined := true]> ∅))).

Definition New (next : http.Handler) (config : Config)
  : option AuthConverter * option error :=
  if negb (default false (validConfig !! tokenSource config)) then
    (None, Some (errors_New "invalid token source"))
  else
    (Some {| next := next;
             ac_tokenSource := tokenSource config;
             ac_encodeToken := encodeToken config |}, None).

Definition CreateConfig : Config :=
  {| tokenSource := combined;
     encodeToken := false |}.

End V1.

(** ** Notions used to state the properties *)

(** The token sources that split a Basic credential. *)
Definition splitting_sources : list TokenSource := [username; password; combined].

(** The five recognized token sources. *)
Definition recognized_sources : list TokenSource :=
  [username; password; combined; unchanged; decoded].

(** The four token sources the first variant recognizes. *)
Definition V1_recognized_sources : list TokenSource :=
  [username; password; combined; unchanged].

(** The converter of the extended variant that stands for one of the first
    variant: the same token source and encoding flag, from Basic to Bearer. *)
Definition V1_as_extended (e : V1.AuthConverter) : AuthConverter :=
  {| next := V1.next e;
     config := {| tokenSource := V1.ac_tokenSource e;
                  encodeToken := V1.ac_encodeToken e;
                  sourceType := basic;
                  targetType := bearer |} |}.

(** The token a splitting source selects from the two parts of a credential. *)
Definition selected (ts : TokenSource) (u p : string) : string :=
  if String.eqb ts username then u
  else if String.eqb ts password then p
  else u +:+ p.

(** Membership in the standard alphabet. *)
Definition is_value (c : ascii) : bool := has_byte c base64.encodeStd.

(** The input without the line breaks the decoder ignores. *)
Fixpoint strip_newlines (s : string) : string :=
  match s with
  | EmptyString => EmptyString
  | String c r =>
      if base64.is_newline c then strip_newlines r
      else String c (strip_newlines r)
  end.

(** Padded base64 over the standard alphabet: groups of four characters of
    the alphabet, the last group possibly ending in one or two padding
    characters. *)
Fixpoint well_padded (s : string) : bool :=
  match s with
  | EmptyString => true
  | String a (String b (String c (String d rest))) =>
      is_value a && is_value b &&
      (if is_value c then
         if is_value d then well_padded rest
         else Ascii.eqb d base64.StdPadding && String.eqb rest ""
       else Ascii.eqb c base64.StdPadding && Ascii.eqb d base64.StdPadding
            && String.eqb rest "")
  | _ => false
  end.

(** A valid payload: padded standard base64 once the carriage returns and
    line feeds, which Go's decoder skips, are left out. *)
Definition valid_base64 (p : string) : bool := well_padded (strip_newlines p).

(** [well_padded] read one character at a time: [j] is the position in the
    current group of four. *)
Fixpoint padded_from (j : nat) (s : string) : bool :=
  match s with
  | EmptyString => (j =? 0)%nat
  | String c r =>
      if is_value c then padded_from (if (j =? 3)%nat then 0 else S j) r
      else if Ascii.eqb c base64.StdPadding then
        match j with
        | 2%nat => String.eqb r "="
        | 3%nat => String.eqb r ""
        | _ => false
        end
      else false
  end.

(** [err == nil] *)
Definition no_error (err : option base64.CorruptInputError) : bool :=
  match err with None => true | Some _ => false end.

(** The failure conditions of the extractor in the order of the
    specification, each with the kind of failure it gives.  A header without
    a space does not split in two; otherwise [scheme] is what precedes its
    first space and [payload] what follows it. *)
Inductive first_failure (e : AuthConverter) (header : string) : error -> Prop :=
| fails_MalformedHeader :
    has_byte " " header = false ->
    first_failure e header MalformedHeader
| fails_SchemeMismatch (scheme payload : string) :
    header = scheme +:+ " " +:+ payload ->
    has_byte " " scheme = false ->
    scheme <> sourceType (config e) ->
    first_failure e header SchemeMismatch
| fails_DecodeError (scheme payload : string) :
    header = scheme +:+ " " +:+ payload ->
    has_byte " " scheme = false ->
    scheme = sourceType (config e) ->
    tokenSource (config e) <> unchanged ->
    valid_base64 payload = false ->
    first_failure e header DecodeError
| fails_UnsupportedSourceForSplit (scheme payload : string) :
    header = scheme +:+ " " +:+ payload ->
    has_byte " " scheme = false ->
    scheme = sourceType (config e) ->
    In (tokenSource (config e)) splitting_sources ->
    valid_base64 payload = true ->
    sourceType (config e) <> "Basic" ->
    first_failure e header UnsupportedSourceForSplit
| fails_MalformedCredential (scheme payload : string) :
    header = scheme +:+ " " +:+ payload ->
    has_byte " " scheme = false ->
    scheme = sourceType (config e) ->
    In (tokenSource (config e)) splitting_sources ->
    valid_base64 payload = true ->
    sourceType (config e) = "Basic" ->
    has_byte ":" (base64.DecodeString payload).1 = false ->
    first_failure e header MalformedCredential.

(** ** Fixtures of the repository's tests *)

Definition test_converter (src : TokenSource) : AuthConverter :=
  {| next := http.HandlerFunc 0;
     config := {| tokenSource := src; encodeToken := false;
                  sourceType := basic; targetType := bearer |} |}.

Definition test_world (header : string) : http.World :=
  {| http.req_Header := http.Set_ ∅ HeaderName header;
     http.rw_Header := ∅;
     http.calls := [] |}.

(** Arithmetic with division and remainder by constants. *)
Ltac arith := cbn; Z.div_mod_to_equations; lia.

(** ** Strings: append, length and slices *)

Lemma append_nil_r (s : string) : s +:+ "" = s.
Proof. induction s as [|c s IH]; simpl; [reflexivity | now rewrite IH]. Qed.

Lemma append_assoc (s t u : string) : (s +:+ t) +:+ u = s +:+ t +:+ u.
Proof. induction s as [|c s IH]; simpl; [reflexivity | now rewrite IH]. Qed.

Lemma length_append (s t : string) :
  String.length (s +:+ t) = (String.length s + String.length t)%nat.
Proof. induction s as [|c s IH]; simpl; [reflexivity | now rewrite IH]. Qed.

Lemma substring_all (s : string) : String.substring 0 (String.length s) s = s.
Proof. induction s as [|c s IH]; simpl; [reflexivity | now rewrite IH]. Qed.

Lemma substring_prefix (u v : string) :
  String.substring 0 (String.length u) (u +:+ v) = u.
Proof.
  induction u as [|c u IH]; simpl.
  - destruct v; reflexivity.
  - now rewrite IH.
Qed.

Lemma substring_suffix (u v : string) :
  String.substring (String.length u) (String.length v) (u +:+ v) = v.
Proof. induction u as [|c u IH]; simpl; [apply substring_all | exact IH]. Qed.

Lemma slice_to_append (u v : string) : slice_to (u +:+ v) (len u) = u.
Proof.
  unfold slice_to, len. rewrite Nat2Z.id. apply substring_prefix.
Qed.

Lemma slice_from_append (u : string) (c : ascii) (p : string) :
  slice_from (u +:+ String c p) (len u + 1) = p.
Proof.
  unfold slice_from, len.
  replace (Z.to_nat (Z.of_nat (String.length u) + 1))
    with (String.length (u +:+ String c "")) by (rewrite length_append; simpl; lia).
  replace (u +:+ String c p) with ((u +:+ String c "") +:+ p)
    by (rewrite append_assoc; reflexivity).
  rewrite (length_append (u +:+ String c "") p).
  replace (String.length (u +:+ String c "") + String.length p
           - String.length (u +:+ String c ""))%nat
    with (String.length p) by lia.
  apply substring_suffix.
Qed.

Lemma has_byte_append (c : ascii) (u v : string) :
  has_byte c (u +:+ v) = has_byte c u || has_byte c v.
Proof.
  induction u as [|x u IH]; simpl; [reflexivity|].
  rewrite IH. now rewrite orb_assoc.
Qed.

(** ** [strings.SplitN] with [n = 2]: a cut at the first separator *)

Lemma IndexByte_absent (s : string) (c : ascii) :
  has_byte c s = false -> strings.IndexByte s c = -1.
Proof.
  induction s as [|x s IH]; simpl; [reflexivity|].
  intros H. apply orb_false_iff in H as [Hx Hs].
  rewrite Hx, (IH Hs). reflexivity.
Qed.

Lemma IndexByte_first (u : string) (c : ascii) (p : string) :
  has_byte c u = false -> strings.IndexByte (u +:+ String c p) c = len u.
Proof.
  unfold len. induction u as [|x u IH]; simpl String.append; intros H.
  - simpl. now rewrite Ascii.eqb_refl.
  - simpl in H. apply orb_false_iff in H as [Hx Hu].
    cbn [strings.IndexByte]. rewrite Hx, (IH Hu).
    destruct (Z.ltb_spec (Z.of_nat (String.length u)) 0); simpl String.length; lia.
Qed.

Lemma SplitN_2_absent (s : string) (sep : ascii) :
  has_byte sep s = false -> strings.SplitN s sep 2 = [s].
Proof.
  intros H. unfold strings.SplitN. cbn [Z.eqb Z.ltb Z.compare].
  destruct (2 >? len s + 1).
  - replace (Z.to_nat (len s + 1 - 1)) with (String.length s) by (unfold len; lia).
    destruct s; [reflexivity|].
    cbn [String.length strings.genSplit_loop]. now rewrite (IndexByte_absent _ _ H).
  - change (Z.to_nat (2 - 1)) with 1%nat. cbn [strings.genSplit_loop].
    now rewrite (IndexByte_absent _ _ H).
Qed.

Lemma SplitN_2_first (u : string) (sep : ascii) (p : string) :
  has_byte sep u = false ->
  strings.SplitN (u +:+ String sep p) sep 2 = [u; p].
Proof.
  intros H. unfold strings.SplitN. cbn [Z.eqb Z.ltb Z.compare].
  assert (Hlen : (2 >? len (u +:+ String sep p) + 1) = false).
  { unfold len. rewrite length_append. simpl String.length.
    rewrite Z.gtb_ltb. apply Z.ltb_ge. lia. }
  rewrite Hlen. change (Z.to_nat (2 - 1)) with 1%nat.
  cbn [strings.genSplit_loop]. rewrite (IndexByte_first _ _ _ H).
  assert (Hm : (len u <? 0) = false) by (apply Z.ltb_ge; unfold len; lia).
  rewrite Hm, slice_to_append, slice_from_append. reflexivity.
Qed.

(** Whatever the input, [SplitN] with [n = 2] has one part and no separator,
    or two parts cut at the first separator. *)
Lemma cut_at_first (s : string) (sep : ascii) :
  has_byte sep s = false \/
  exists u p, s = u +:+ String sep p /\ has_byte sep u = false.
Proof.
  induction s as [|x s IH]; [now left|].
  destruct (Ascii.eqb x sep) eqn:Hx.
  - right. exists "", s. apply Ascii.eqb_eq in Hx. subst x. now split.
  - destruct IH as [IH | (u & p & -> & Hu)].
    + left. simpl. now rewrite Hx, IH.
    + right. exists (String x u), p. split; [reflexivity|].
      simpl. now rewrite Hx, Hu.
Qed.

(** ** The repository's tests, run on the embedding *)

Example base64_decode_test :
  base64.DecodeString "dXNlcl9sb2dpbjp1c2VyX3Bhc3N3b3Jk"
  = ("user_login:user_password", None).
Proof. vm_compute. reflexivity. Qed.

Example base64_encode_test :
  base64.EncodeToString "user_loginuser_password"
  = "dXNlcl9sb2dpbnVzZXJfcGFzc3dvcmQ=".
Proof. vm_compute. reflexivity. Qed.

Example Test_getToken_password :
  getToken (test_converter password) "Basic dXNlcl9sb2dpbjp1c2VyX3Bhc3N3b3Jk"
  = ("user_password", None).
Proof. vm_compute. reflexivity. Qed.

Example Test_getToken_username :
  getToken (test_converter username) "Basic dXNlcl9sb2dpbjp1c2VyX3Bhc3N3b3Jk"
  = ("user_login", None).
Proof. vm_compute. reflexivity. Qed.

Example Test_getToken_unchanged :
  getToken (test_converter unchanged) "Basic YTtkbmdhb3VpcmduYXdvZ2lu"
  = ("YTtkbmdhb3VpcmduYXdvZ2lu", None).
Proof. vm_compute. reflexivity. Qed.

Example Test_getToken_decoded :
  getToken (test_converter decoded) "Basic YTtkbmdhb3VpcmduYXdvZ2lu"
  = ("a;dngaouirgnawogin", None).
Proof. vm_compute. reflexivity. Qed.

Example Test_getToken_errors :
  getToken (test_converter password) "Bearer YTtkbmdhb3VpcmduYXdvZ2lu"
    = ("", Some SchemeMismatch)
  /\ getToken (test_converter password) "BearerYTtkbmdhb3VpcmduYXdvZ2lu"
    = ("", Some MalformedHeader)
  /\ getToken (test_converter password) "Basic dXNlcl9sb2dpbnVzZXJfcGFzc3dvcmQ="
    = ("", Some MalformedCredential)
  /\ getToken (test_converter password) "Basic dXNlcl9sb2dpbjp1c2VyX3Bhc3N3b3Jk-"
    = ("", Some DecodeError).
Proof. vm_compute. repeat split; reflexivity. Qed.

Example Test_ServeHTTP_target_type :
  http.Get (http.req_Header
    (ServeHTTP
       {| next := http.HandlerFunc 0;
          config := {| tokenSource := combined; encodeToken := false;
                       sourceType := basic; targetType := digest |} |}
       (test_world "Basic ZFhObGNsOXNiMmRwYm5WOnpaWEpmY0dGemMzZHZjbVE9")))
    HeaderName
  = "Digest dXNlcl9sb2dpbnVzZXJfcGFzc3dvcmQ=".
Proof. vm_compute. reflexivity. Qed.

Example Test_ServeHTTP_encoded :
  http.Get (http.req_Header
    (ServeHTTP
       {| next := http.HandlerFunc 0;
          config := {| tokenSource := combined; encodeToken := true;
                       sourceType := basic; targetType := bearer |} |}
       (test_world "Basic dXNlcl9sb2dpbjp1c2VyX3Bhc3N3b3Jk")))
    HeaderName
  = "Bearer dXNlcl9sb2dpbnVzZXJfcGFzc3dvcmQ=".
Proof. vm_compute. reflexivity. Qed.


(** ** Base64: a group of three bytes and its four 6-bit values *)

Lemma uint_range (b : ascii) : 0 <= uint b < 256.
Proof.
  unfold uint. pose proof (N_ascii_bounded b). lia.
Qed.

Lemma byte_of_uint (b : ascii) (x : Z) : x mod 256 = uint b -> byte_of x = b.
Proof.
  intros H. unfold byte_of. rewrite H. unfold uint.
  rewrite N2Z.id. apply ascii_N_embedding.
Qed.

Lemma lor_add (k X y : Z) :
  0 <= k -> X mod 2 ^ k = 0 -> 0 <= y < 2 ^ k -> Z.lor X y = X + y.
Proof.
  intros Hk HX Hy.
  assert (Hdisj : Z.land X y = 0).
  { apply Z.bits_inj'. intros n Hn. rewrite Z.land_spec, Z.bits_0.
    destruct (Z.lt_ge_cases n k) as [Hlt | Hge].
    - rewrite <- (Z.mod_pow2_bits_low X k n) by assumption.
      rewrite HX, Z.bits_0. reflexivity.
    - rewrite <- (Z.mod_small y (2 ^ k)) by assumption.
      rewrite Z.mod_pow2_bits_high by lia. apply andb_false_r. }
  rewrite <- Z.lxor_lor by assumption.
  now rewrite <- Z.add_nocarry_lxor by assumption.
Qed.

Lemma sextet_range (x : Z) : 0 <= Z.land x 63 < 64.
Proof.
  change 63 with (Z.ones 6). rewrite Z.land_ones by lia.
  apply Z.mod_pos_bound. reflexivity.
Qed.

Lemma assemble_add (d0 d1 d2 d3 : Z) :
  0 <= d0 < 64 -> 0 <= d1 < 64 -> 0 <= d2 < 64 -> 0 <= d3 < 64 ->
  Z.lor (Z.lor (Z.lor (Z.shiftl d0 18) (Z.shiftl d1 12)) (Z.shiftl d2 6)) d3
  = d0 * 262144 + d1 * 4096 + d2 * 64 + d3.
Proof.
  intros H0 H1 H2 H3.
  rewrite !Z.shiftl_mul_pow2 by lia.
  change (2 ^ 18) with 262144. change (2 ^ 12) with 4096. change (2 ^ 6) with 64.
  rewrite (lor_add 18 (d0 * 262144) (d1 * 4096)) by arith.
  rewrite (lor_add 12 (d0 * 262144 + d1 * 4096) (d2 * 64)) by arith.
  rewrite (lor_add 6 (d0 * 262144 + d1 * 4096 + d2 * 64) d3) by arith.
  reflexivity.
Qed.

Lemma val3_add (a b c : Z) :
  0 <= a < 256 -> 0 <= b < 256 -> 0 <= c < 256 ->
  Z.lor (Z.lor (Z.shiftl a 16) (Z.shiftl b 8)) c = a * 65536 + b * 256 + c.
Proof.
  intros Ha Hb Hc.
  rewrite !Z.shiftl_mul_pow2 by lia.
  change (2 ^ 16) with 65536. change (2 ^ 8) with 256.
  rewrite (lor_add 16 (a * 65536) (b * 256)) by arith.
  rewrite (lor_add 8 (a * 65536 + b * 256) c) by arith.
  reflexivity.
Qed.

Lemma sextet_shiftr (val k : Z) :
  0 <= k -> Z.land (Z.shiftr val k) 63 = (val / 2 ^ k) mod 64.
Proof.
  intros Hk. change 63 with (Z.ones 6).
  rewrite Z.land_ones, Z.shiftr_div_pow2 by lia. reflexivity.
Qed.


Lemma sextet_low (val : Z) : Z.land val 63 = val mod 64.
Proof. change 63 with (Z.ones 6). now rewrite Z.land_ones by lia. Qed.

Lemma sextets_sum (val : Z) :
  0 <= val < 16777216 ->
  (val / 262144) mod 64 * 262144 + (val / 4096) mod 64 * 4096
  + (val / 64) mod 64 * 64 + val mod 64 = val.
Proof.
  intros Hval.
  replace (val / 4096) with (val / 64 / 64) by (rewrite Z.div_div by lia; reflexivity).
  replace (val / 262144) with (val / 64 / 64 / 64)
    by (rewrite !Z.div_div by lia; reflexivity).
  Z.div_mod_to_equations. lia.
Qed.

Lemma quantum_bytes_group (a b c : ascii) :
  let val :=
    Z.lor (Z.lor (Z.shiftl (uint a) 16) (Z.shiftl (uint b) 8)) (uint c) in
  base64.quantum_bytes
    [Z.land (Z.shiftr val 18) 63; Z.land (Z.shiftr val 12) 63;
     Z.land (Z.shiftr val 6) 63; Z.land val 63] 4
  = String a (String b (String c "")).
Proof.
  intros val. unfold base64.quantum_bytes. cbn [nth].
  pose proof (uint_range a) as Ha. pose proof (uint_range b) as Hb.
  pose proof (uint_range c) as Hc.
  rewrite assemble_add by apply sextet_range.
  rewrite !sextet_shiftr, sextet_low, !Z.shiftr_div_pow2 by lia.
  subst val. rewrite val3_add by assumption.
  change (2^18) with 262144; change (2^12) with 4096; change (2^6) with 64.
  rewrite sextets_sum by lia.
  f_equal; [|f_equal; [|f_equal]]; apply byte_of_uint; arith.
Qed.

Lemma quantum_bytes_two (a b : ascii) :
  let val := Z.lor (Z.shiftl (uint a) 16) (Z.shiftl (uint b) 8) in
  base64.quantum_bytes
    [Z.land (Z.shiftr val 18) 63; Z.land (Z.shiftr val 12) 63;
     Z.land (Z.shiftr val 6) 63] 3
  = String a (String b "").
Proof.
  intros val. unfold base64.quantum_bytes. cbn [nth].
  pose proof (uint_range a) as Ha. pose proof (uint_range b) as Hb.
  rewrite assemble_add by (try apply sextet_range; lia).
  rewrite !sextet_shiftr, !Z.shiftr_div_pow2 by lia.
  assert (Hval : val = uint a * 65536 + uint b * 256).
  { subst val. rewrite <- (Z.lor_0_r (Z.lor _ _)).
    rewrite val3_add by lia. lia. }
  rewrite Hval.
  change (2^18) with 262144; change (2^12) with 4096; change (2^6) with 64.
  pose proof (sextets_sum (uint a * 65536 + uint b * 256) ltac:(lia)) as Hsum.
  assert (H0 : (uint a * 65536 + uint b * 256) mod 64 = 0) by arith.
  replace (_ + _ * 64 + 0) with (uint a * 65536 + uint b * 256) by lia.
  f_equal; [|f_equal]; apply byte_of_uint; arith.
Qed.

Lemma quantum_bytes_one (a : ascii) :
  let val := Z.shiftl (uint a) 16 in
  base64.quantum_bytes
    [Z.land (Z.shiftr val 18) 63; Z.land (Z.shiftr val 12) 63] 2
  = String a "".
Proof.
  intros val. unfold base64.quantum_bytes. cbn [nth].
  pose proof (uint_range a) as Ha.
  rewrite assemble_add by (try apply sextet_range; lia).
  rewrite !sextet_shiftr, !Z.shiftr_div_pow2 by lia.
  assert (Hval : val = uint a * 65536).
  { subst val. rewrite Z.shiftl_mul_pow2 by lia. reflexivity. }
  rewrite Hval.
  change (2^18) with 262144; change (2^12) with 4096.
  pose proof (sextets_sum (uint a * 65536) ltac:(lia)) as Hsum.
  assert (H0 : (uint a * 65536) mod 64 = 0) by arith.
  assert (H1 : (uint a * 65536 / 64) mod 64 = 0) by arith.
  replace (_ + 0 * 64 + 0) with (uint a * 65536) by lia.
  f_equal; apply byte_of_uint; arith.
Qed.

Lemma decodeMap_encode (v : Z) :
  0 <= v < 64 -> base64.decodeMap (base64.encode v) = v.
Proof.
  intros Hv.
  assert (Hall : forallb
            (fun n => base64.decodeMap (base64.encode (Z.of_nat n)) =? Z.of_nat n)
            (seq 0 64) = true) by (vm_compute; reflexivity).
  rewrite forallb_forall in Hall.
  specialize (Hall (Z.to_nat v)). rewrite Z2Nat.id in Hall by lia.
  apply Z.eqb_eq, Hall, in_seq. lia.
Qed.

Lemma decodeQuantum_from_value (dbuf : list Z) (v : Z) (rest : string) :
  0 <= v < 64 ->
  base64.decodeQuantum_from dbuf (String (base64.encode v) rest)
  = if (List.length dbuf =? 3)%nat
    then (rest, base64.quantum_bytes (dbuf ++ [v]) 4, None)
    else base64.decodeQuantum_from (dbuf ++ [v]) rest.
Proof.
  intros Hv. cbn [base64.decodeQuantum_from].
  rewrite (decodeMap_encode v Hv).
  assert (Hne : (v =? 255) = false) by (apply Z.eqb_neq; lia).
  rewrite Hne. reflexivity.
Qed.

Lemma decodeQuantum_group (v0 v1 v2 v3 : Z) (rest : string) :
  0 <= v0 < 64 -> 0 <= v1 < 64 -> 0 <= v2 < 64 -> 0 <= v3 < 64 ->
  base64.decodeQuantum
    (String (base64.encode v0) (String (base64.encode v1)
       (String (base64.encode v2) (String (base64.encode v3) rest))))
  = (rest, base64.quantum_bytes [v0; v1; v2; v3] 4, None).
Proof.
  intros H0 H1 H2 H3. unfold base64.decodeQuantum.
  rewrite !decodeQuantum_from_value by assumption. reflexivity.
Qed.

Lemma decodeQuantum_padded_two (v0 v1 v2 : Z) :
  0 <= v0 < 64 -> 0 <= v1 < 64 -> 0 <= v2 < 64 ->
  base64.decodeQuantum
    (String (base64.encode v0) (String (base64.encode v1)
       (String (base64.encode v2) (String base64.StdPadding ""))))
  = ("", base64.quantum_bytes [v0; v1; v2] 3, None).
Proof.
  intros H0 H1 H2. unfold base64.decodeQuantum.
  rewrite !decodeQuantum_from_value by assumption. reflexivity.
Qed.

Lemma decodeQuantum_padded_one (v0 v1 : Z) :
  0 <= v0 < 64 -> 0 <= v1 < 64 ->
  base64.decodeQuantum
    (String (base64.encode v0) (String (base64.encode v1)
       (String base64.StdPadding (String base64.StdPadding ""))))
  = ("", base64.quantum_bytes [v0; v1] 2, None).
Proof.
  intros H0 H1. unfold base64.decodeQuantum.
  rewrite !decodeQuantum_from_value by assumption. reflexivity.
Qed.

(** Induction over a byte string in groups of three. *)
Lemma string_groups_ind (P : string -> Prop) :
  P "" ->
  (forall a, P (String a "")) ->
  (forall a b, P (String a (String b ""))) ->
  (forall a b c rest, P rest -> P (String a (String b (String c rest)))) ->
  forall s, P s.
Proof.
  intros H0 H1 H2 H3.
  assert (Hall : forall s, P s /\ (forall a, P (String a s))
                           /\ (forall a b, P (String a (String b s)))).
  { induction s as [|c s (IHs & IH1 & IH2)]; repeat split; auto. }
  intros s. apply Hall.
Qed.

Lemma Decode_loop_Encode (src : string) :
  forall fuel, (String.length (base64.Encode src) <= fuel)%nat ->
  base64.Decode_loop fuel (base64.Encode src) = (src, None).
Proof.
  induction src as [ | a | a b | a b c rest IH ] using string_groups_ind;
    intros fuel Hfuel.
  - destruct fuel; reflexivity.
  - destruct fuel as [|fuel]; [simpl in Hfuel; lia|].
    cbn [base64.Encode base64.Decode_loop].
    rewrite decodeQuantum_padded_one by apply sextet_range.
    rewrite quantum_bytes_one. destruct fuel; reflexivity.
  - destruct fuel as [|fuel]; [simpl in Hfuel; lia|].
    cbn [base64.Encode base64.Decode_loop].
    rewrite decodeQuantum_padded_two by apply sextet_range.
    rewrite quantum_bytes_two. destruct fuel; reflexivity.
  - destruct fuel as [|fuel]; [simpl in Hfuel; lia|].
    cbn [base64.Encode base64.Decode_loop].
    rewrite decodeQuantum_group by apply sextet_range.
    rewrite quantum_bytes_group.
    rewrite IH by (cbn [base64.Encode String.length] in Hfuel; lia).
    reflexivity.
Qed.

Theorem DecodeString_EncodeToString (x : string) :
  base64.DecodeString (base64.EncodeToString x) = (x, None).
Proof.
  unfold base64.DecodeString, base64.EncodeToString.
  apply Decode_loop_Encode. lia.
Qed.

(** ** Base64: the decoding loop never runs out of fuel *)

Lemma skip_newlines_length (s : string) :
  (String.length (base64.skip_newlines s) <= String.length s)%nat.
Proof.
  induction s as [|c s IH]; simpl; [lia|].
  destruct (base64.is_newline c); simpl; lia.
Qed.

Lemma decodePadding_shorter (dbuf : list Z) (rest : string) :
  (String.length (base64.decodePadding dbuf rest).1.1 <= String.length rest)%nat.
Proof.
  unfold base64.decodePadding.
  destruct dbuf as [|d0 [|d1 [|d2 dbuf]]]; cbn [List.length Nat.eqb fst];
    try lia.
  - pose proof (skip_newlines_length rest) as Hrest.
    destruct (base64.skip_newlines rest) as [|c2 r2]; cbn [fst String.length]; [lia|].
    pose proof (skip_newlines_length r2).
    destruct (Ascii.eqb c2 base64.StdPadding); cbn [fst String.length] in *; lia.
  - apply skip_newlines_length.
Qed.

(** A quantum read from a non-empty input leaves a shorter input. *)
Lemma decodeQuantum_from_shorter (r : string) :
  forall (dbuf : list Z) (c : ascii),
  (String.length (base64.decodeQuantum_from dbuf (String c r)).1.1
   <= String.length r)%nat.
Proof.
  induction r as [|c' r IH]; intros dbuf c; cbn [base64.decodeQuantum_from].
  - repeat case_match; cbn [fst String.length]; try lia;
      apply decodePadding_shorter.
  - set (r0 := String c' r).
    assert (Hrec : forall d, (String.length (base64.decodeQuantum_from d r0).1.1
                             <= String.length r0)%nat).
    { intros d. specialize (IH d c'). subst r0. cbn [String.length]. lia. }
    destruct (negb (base64.decodeMap c =? 255)).
    + destruct (List.length dbuf =? 3)%nat; [cbn [fst]; lia | apply Hrec].
    + destruct (base64.is_newline c); [apply Hrec|].
      destruct (negb (Ascii.eqb c base64.StdPadding)); [cbn [fst]; lia|].
      apply decodePadding_shorter.
Qed.

Lemma Decode_loop_fuel (n : nat) :
  forall (src : string) (fuel fuel' : nat),
  (String.length src <= n)%nat ->
  (String.length src <= fuel)%nat -> (String.length src <= fuel')%nat ->
  base64.Decode_loop fuel src = base64.Decode_loop fuel' src.
Proof.
  induction n as [|n IH]; intros src fuel fuel' Hn Hf Hf'.
  - destruct src; [|simpl in Hn; lia]. destruct fuel, fuel'; reflexivity.
  - destruct src as [|c r]; [destruct fuel, fuel'; reflexivity|].
    destruct fuel as [|fuel]; [simpl in Hf; lia|].
    destruct fuel' as [|fuel']; [simpl in Hf'; lia|].
    cbn [base64.Decode_loop]. unfold base64.decodeQuantum.
    pose proof (decodeQuantum_from_shorter r [] c) as Hshort.
    destruct (base64.decodeQuantum_from [] (String c r)) as [[rest out] err].
    cbn [fst] in Hshort. simpl String.length in *.
    destruct err; [reflexivity|].
    rewrite (IH rest fuel fuel') by lia. reflexivity.
Qed.

(** ** Base64: the payloads the decoder accepts *)

Lemma decodeMap_is_value (c : ascii) :
  negb (base64.decodeMap c =? 255) = is_value c.
Proof. destruct c as [[] [] [] [] [] [] [] []]; vm_compute; reflexivity. Qed.

Lemma is_value_not_newline (c : ascii) :
  is_value c = true -> base64.is_newline c = false.
Proof. destruct c as [[] [] [] [] [] [] [] []]; vm_compute; congruence. Qed.

Lemma strip_newlines_skip (s : string) :
  strip_newlines (base64.skip_newlines s) = strip_newlines s.
Proof.
  induction s as [|c s IH]; [reflexivity|]. cbn [base64.skip_newlines].
  destruct (base64.is_newline c) eqn:Hc; cbn [strip_newlines]; rewrite Hc;
    [exact IH | reflexivity].
Qed.

Lemma skip_newlines_head (s : string) (c : ascii) (r : string) :
  base64.skip_newlines s = String c r -> base64.is_newline c = false.
Proof.
  induction s as [|x s IH]; cbn [base64.skip_newlines]; [discriminate|].
  destruct (base64.is_newline x) eqn:Hx; [exact IH|].
  intros [= <- <-]. exact Hx.
Qed.

Lemma strip_newlines_empty (s : string) :
  String.eqb (strip_newlines s) ""
  = String.eqb (base64.skip_newlines s) "".
Proof.
  induction s as [|c s IH]; [reflexivity|].
  cbn [strip_newlines base64.skip_newlines].
  destruct (base64.is_newline c); [exact IH | reflexivity].
Qed.

Lemma decodePadding_accepts (dbuf : list Z) (rest : string) :
  (List.length dbuf <= 3)%nat ->
  match List.length dbuf with
  | 2%nat => String.eqb (strip_newlines rest) "="
  | 3%nat => String.eqb (strip_newlines rest) ""
  | _ => false
  end
  = no_error (base64.decodePadding dbuf rest).2
    && padded_from 0 (strip_newlines (base64.decodePadding dbuf rest).1.1).
Proof.
  intros Hj. unfold base64.decodePadding.
  destruct dbuf as [|d0 [|d1 [|d2 [|d3 dbuf]]]];
    cbn [List.length Nat.eqb fst snd no_error andb] in *; try reflexivity;
    try lia.
  - rewrite <- (strip_newlines_skip rest).
    destruct (base64.skip_newlines rest) as [|c2 r2] eqn:Hskip;
      [reflexivity|].
    cbn [strip_newlines]. rewrite (skip_newlines_head _ _ _ Hskip).
    cbn [String.eqb]. unfold base64.StdPadding.
    destruct (Ascii.eqb c2 "=") eqn:Hc2; cbn [fst snd no_error andb];
      [|reflexivity].
    rewrite strip_newlines_empty.
    destruct (base64.skip_newlines r2); reflexivity.
  - rewrite strip_newlines_empty.
    destruct (base64.skip_newlines rest); reflexivity.
Qed.

Lemma decodeQuantum_from_accepts (src : string) :
  forall dbuf : list Z,
  (List.length dbuf <= 3)%nat ->
  padded_from (List.length dbuf) (strip_newlines src)
  = no_error (base64.decodeQuantum_from dbuf src).2
    && padded_from 0 (strip_newlines (base64.decodeQuantum_from dbuf src).1.1).
Proof.
  induction src as [|c rest IH]; intros dbuf Hj.
  - destruct dbuf; reflexivity.
  - cbn [base64.decodeQuantum_from strip_newlines].
    rewrite decodeMap_is_value.
    destruct (is_value c) eqn:Hval.
    + rewrite (is_value_not_newline c Hval). cbn [padded_from]. rewrite Hval.
      destruct (List.length dbuf =? 3)%nat eqn:Hlen; [reflexivity|].
      apply Nat.eqb_neq in Hlen.
      rewrite <- (IH (dbuf ++ [base64.decodeMap c]))
        by (rewrite length_app; simpl; lia).
      rewrite length_app. simpl List.length.
      now replace (List.length dbuf + 1)%nat with (S (List.length dbuf)) by lia.
    + destruct (base64.is_newline c) eqn:Hnl; [now apply IH|].
      cbn [padded_from]. rewrite Hval.
      destruct (Ascii.eqb c base64.StdPadding) eqn:Hpad; cbn [negb];
        [|reflexivity].
      rewrite <- decodePadding_accepts by assumption.
      destruct (List.length dbuf) as [|[|[|[|n]]]]; reflexivity.
Qed.

Lemma Decode_loop_accepts (n : nat) :
  forall (src : string) (fuel : nat),
  (String.length src <= n)%nat -> (String.length src <= fuel)%nat ->
  no_error (base64.Decode_loop fuel src).2 = padded_from 0 (strip_newlines src).
Proof.
  induction n as [|n IH]; intros src fuel Hn Hfuel.
  - destruct src; [|simpl in Hn; lia]. destruct fuel; reflexivity.
  - destruct src as [|c r]; [destruct fuel; reflexivity|].
    destruct fuel as [|fuel]; [simpl in Hfuel; lia|].
    pose proof (decodeQuantum_from_accepts (String c r) []) as Hq.
    cbn [List.length] in Hq. rewrite Hq by lia. clear Hq.
    cbn [base64.Decode_loop]. unfold base64.decodeQuantum.
    pose proof (decodeQuantum_from_shorter r [] c) as Hshort.
    destruct (base64.decodeQuantum_from [] (String c r)) as [[rest out] err].
    cbn [fst snd String.length] in *.
    destruct err as [err|]; [reflexivity|]. cbn [no_error andb].
    rewrite <- (IH rest fuel) by lia.
    now destruct (base64.Decode_loop fuel rest).
Qed.

Lemma padded_from_groups (s : string) : padded_from 0 s = well_padded s.
Proof.
  assert (Hgen : forall n s, (String.length s <= n)%nat ->
                 padded_from 0 s = well_padded s).
  { clear s. induction n as [|n IH]; intros s Hn.
    - destruct s; [reflexivity | simpl in Hn; lia].
    - destruct s as [|a [|b [|c [|d rest]]]]; cbn [padded_from well_padded Nat.eqb].
      + reflexivity.
      + now destruct (is_value a), (Ascii.eqb a base64.StdPadding).
      + destruct (is_value a), (is_value b), (Ascii.eqb a base64.StdPadding),
          (Ascii.eqb b base64.StdPadding); reflexivity.
      + destruct (is_value a), (is_value b), (is_value c);
          cbn [andb Nat.eqb padded_from String.eqb];
          repeat (destruct (Ascii.eqb _ base64.StdPadding));
          reflexivity.
      + cbn [String.length] in Hn.
        destruct (is_value a); cbn [andb];
          [|destruct (Ascii.eqb a base64.StdPadding); reflexivity].
        destruct (is_value b); cbn [andb];
          [|destruct (Ascii.eqb b base64.StdPadding); reflexivity].
        destruct (is_value c); cbn [andb Nat.eqb].
        * destruct (is_value d); [apply IH; lia|]. reflexivity.
        * destruct (Ascii.eqb c base64.StdPadding); cbn [andb]; [|reflexivity].
          cbn [String.eqb]. unfold base64.StdPadding.
          destruct (Ascii.eqb d "="); reflexivity. }
  apply (Hgen (String.length s)). lia.
Qed.

(** [DecodeString] succeeds exactly on padded standard base64, line breaks
    apart. *)
Theorem DecodeString_accepts (p : string) :
  (base64.DecodeString p).2 = None <-> valid_base64 p = true.
Proof.
  unfold valid_base64, base64.DecodeString.
  rewrite <- padded_from_groups.
  rewrite <- (Decode_loop_accepts (String.length p) p (String.length p)) by lia.
  destruct (base64.Decode_loop (String.length p) p) as [out [err|]];
    cbn [snd no_error]; split; congruence.
Qed.

Lemma DecodeString_valid (p : string) :
  valid_base64 p = true ->
  base64.DecodeString p = ((base64.DecodeString p).1, None).
Proof.
  intros H. apply DecodeString_accepts in H.
  destruct (base64.DecodeString p) as [d err]. cbn [fst snd] in *. now subst.
Qed.

Lemma DecodeString_invalid (p : string) :
  valid_base64 p = false ->
  exists d c, base64.DecodeString p = (d, Some c).
Proof.
  intros H. destruct (base64.DecodeString p) as [d [c|]] eqn:Hdec; [eauto|].
  assert (Hok : valid_base64 p = true)
    by (apply DecodeString_accepts; now rewrite Hdec).
  congruence.
Qed.

(** ** [http.Header]: reading back what was set *)

Lemma Get_Set (h : http.Header) (key value : string) :
  http.Get (http.Set_ h key value) key = value.
Proof. unfold http.Get, http.Set_. now rewrite lookup_insert_eq. Qed.

Lemma Get_Set_other (h : http.Header) (key key' value : string) :
  key <> key' -> http.Get (http.Set_ h key value) key' = http.Get h key'.
Proof.
  intros Hne. unfold http.Get, http.Set_. now rewrite lookup_insert_ne.
Qed.

(** ** [getToken]: the header is cut at its first space *)

Lemma getToken_without_space (e : AuthConverter) (header : string) :
  has_byte " " header = false ->
  getToken e header = ("", Some MalformedHeader).
Proof.
  intros H. unfold getToken. now rewrite (SplitN_2_absent _ _ H).
Qed.

(** With a scheme other than the configured one, nothing else is looked at. *)
Lemma getToken_other_scheme (e : AuthConverter) (scheme payload : string) :
  has_byte " " scheme = false ->
  scheme <> sourceType (config e) ->
  getToken e (scheme +:+ " " +:+ payload) = ("", Some SchemeMismatch).
Proof.
  intros Hsp Hne. unfold getToken.
  change (scheme +:+ " " +:+ payload) with (scheme +:+ String " " payload).
  rewrite (SplitN_2_first _ _ _ Hsp).
  apply String.eqb_neq in Hne. now rewrite Hne.
Qed.

(** With the configured scheme, what [getToken] does with the payload. *)
Lemma getToken_source_scheme (e : AuthConverter) (payload : string) :
  has_byte " " (sourceType (config e)) = false ->
  getToken e (sourceType (config e) +:+ " " +:+ payload)
  = if String.eqb (tokenSource (config e)) unchanged then (payload, None)
    else
      match base64.DecodeString payload with
      | (_, Some _) => ("", Some DecodeError)
      | (sourceTokenDecoded, None) =>
          if String.eqb (tokenSource (config e)) decoded
          then (sourceTokenDecoded, None)
          else if negb (String.eqb (sourceType (config e)) basic)
          then ("", Some UnsupportedSourceForSplit)
          else
            match strings.SplitN sourceTokenDecoded ":" 2 with
            | [part0; part1] =>
                if String.eqb (tokenSource (config e)) username
                then (part0, None)
                else if String.eqb (tokenSource (config e)) password
                then (part1, None)
                else if String.eqb (tokenSource (config e)) combined
                then (part0 +:+ part1, None)
                else ("", Some InvalidTokenSource)
            | _ => ("", Some MalformedCredential)
            end
      end.
Proof.
  intros Hsp. unfold getToken.
  change (sourceType (config e) +:+ " " +:+ payload)
    with (sourceType (config e) +:+ String " " payload).
  rewrite (SplitN_2_first _ _ _ Hsp), String.eqb_refl. reflexivity.
Qed.

Lemma splitting_source_cases (ts : TokenSource) :
  In ts splitting_sources ->
  String.eqb ts unchanged = false /\ String.eqb ts decoded = false.
Proof.
  intros [<- | [<- | [<- | []]]]; split; reflexivity.
Qed.

(** ** Base64 output is longer than its input *)

Lemma Encode_length_le (s : string) :
  (String.length s <= String.length (base64.Encode s))%nat.
Proof.
  induction s as [ | a | a b | a b c rest IH ] using string_groups_ind;
    cbn [base64.Encode String.length]; lia.
Qed.

Lemma Encode_differs (s : string) : s <> "" -> base64.EncodeToString s <> s.
Proof.
  intros Hne Heq. apply (f_equal String.length) in Heq.
  unfold base64.EncodeToString in Heq.
  destruct s as [|a [|b [|c rest]]]; [congruence | | |];
    cbn [base64.Encode String.length] in Heq; try lia.
  pose proof (Encode_length_le rest). lia.
Qed.

(** ** [ServeHTTP] after a successful extraction *)

Lemma ServeHTTP_success (e : AuthConverter) (w : http.World) (t : string) :
  getToken e (http.Get (http.req_Header w) HeaderName) = (t, None) ->
  ServeHTTP e w
  = http.ServeHTTP (next e)
      {| http.req_Header :=
           http.Set_ (http.req_Header w) HeaderName
             (targetType (config e) +:+ " "
              +:+ (if encodeToken (config e) then base64.EncodeToString t else t));
         http.rw_Header := http.rw_Header w;
         http.calls := http.calls w |}.
Proof. intros Htok. unfold ServeHTTP. now rewrite Htok. Qed.

Lemma ServeHTTP_success_Get (e : AuthConverter) (w : http.World) (t : string) :
  getToken e (http.Get (http.req_Header w) HeaderName) = (t, None) ->
  http.Get (http.req_Header (ServeHTTP e w)) HeaderName
  = targetType (config e) +:+ " "
    +:+ (if encodeToken (config e) then base64.EncodeToString t else t).
Proof.
  intros Htok. rewrite (ServeHTTP_success e w t Htok). cbn. apply Get_Set.
Qed.

(** ** Properties of the extractor *)

(** C1. For a header ["Basic " + base64(u + ":" + p)] where [u] has no colon,
    extraction with token source [combined] and source type ["Basic"]
    succeeds and returns [u + p]: user name and password joined with no
    separator. *)
Theorem getToken_combined (e : AuthConverter) (u p : string) :
  tokenSource (config e) = combined ->
  sourceType (config e) = "Basic" ->
  has_byte ":" u = false ->
  getToken e ("Basic " +:+ base64.EncodeToString (u +:+ ":" +:+ p))
  = (u +:+ p, None).
Proof.
  intros Hts Hst Hu.
  change ("Basic " +:+ ?x) with ("Basic" +:+ " " +:+ x).
  rewrite <- Hst at 1. rewrite getToken_source_scheme by (rewrite Hst; reflexivity).
  rewrite Hts, Hst, DecodeString_EncodeToString.
  cbn [String.eqb Ascii.eqb Bool.eqb combined unchanged decoded basic negb].
  change (u +:+ ":" +:+ p) with (u +:+ String ":" p).
  rewrite (SplitN_2_first _ _ _ Hu). reflexivity.
Qed.

Lemma getToken_combined_witness :
  let e := test_converter combined in
  tokenSource (config e) = combined /\ sourceType (config e) = "Basic"
  /\ has_byte ":" "user_login" = false
  /\ getToken e ("Basic " +:+ base64.EncodeToString ("user_login" +:+ ":" +:+ "user_password"))
     = ("user_login" +:+ "user_password", None).
Proof.
  refine (conj eq_refl (conj eq_refl (conj eq_refl _))).
  apply (getToken_combined (test_converter combined) "user_login" "user_password");
    reflexivity.
Defined.

(** C5. The extractor checks its failure conditions in the order of the
    specification and fails with the corresponding kind: no space in the
    header, [MalformedHeader]; else a scheme other than the source type,
    [SchemeMismatch]; else, unless the source is [unchanged], a payload that
    does not decode as padded standard base64, [DecodeError]; else, for
    [username], [password] and [combined], a source type other than
    ["Basic"], [UnsupportedSourceForSplit]; else a decoded string without a
    colon, [MalformedCredential]. *)
Theorem getToken_first_failure (e : AuthConverter) (header : string) (err : error) :
  first_failure e header err -> getToken e header = ("", Some err).
Proof.
  intros [ Hsp
         | scheme payload -> Hsp Hne
         | scheme payload -> Hsp -> Hts Hdec
         | scheme payload -> Hsp -> Hts Hdec Hst
         | scheme payload -> Hsp -> Hts Hdec Hst Hcolon ].
  - now apply getToken_without_space.
  - now apply getToken_other_scheme.
  - rewrite getToken_source_scheme by assumption.
    apply String.eqb_neq in Hts. rewrite Hts.
    destruct (DecodeString_invalid _ Hdec) as (d & c & ->). reflexivity.
  - rewrite getToken_source_scheme by assumption.
    destruct (splitting_source_cases _ Hts) as [-> ->].
    rewrite (DecodeString_valid _ Hdec).
    apply String.eqb_neq in Hst. unfold basic. now rewrite Hst.
  - rewrite getToken_source_scheme by assumption.
    destruct (splitting_source_cases _ Hts) as [-> ->].
    rewrite (DecodeString_valid _ Hdec), Hst.
    cbn [String.eqb Ascii.eqb Bool.eqb basic negb].
    now rewrite (SplitN_2_absent _ _ Hcolon).
Qed.

Lemma getToken_first_failure_witness :
  getToken (test_converter password) "BearerYTtkbmdhb3VpcmduYXdvZ2lu"
    = ("", Some MalformedHeader)
  /\ getToken (test_converter password) "Bearer YTtkbmdhb3VpcmduYXdvZ2lu"
    = ("", Some SchemeMismatch)
  /\ getToken (test_converter password) "Basic dXNlcl9sb2dpbjp1c2VyX3Bhc3N3b3Jk-"
    = ("", Some DecodeError)
  /\ getToken
       {| next := http.HandlerFunc 0;
          config := {| tokenSource := username; encodeToken := false;
                       sourceType := bearer; targetType := digest |} |}
       "Bearer dXNlcl9sb2dpbjp1c2VyX3Bhc3N3b3Jk"
    = ("", Some UnsupportedSourceForSplit)
  /\ getToken (test_converter password) "Basic dXNlcl9sb2dpbnVzZXJfcGFzc3dvcmQ="
    = ("", Some MalformedCredential).
Proof.
  refine (conj _ (conj _ (conj _ (conj _ _)))); apply getToken_first_failure.
  - apply fails_MalformedHeader. reflexivity.
  - apply (fails_SchemeMismatch _ _ "Bearer" "YTtkbmdhb3VpcmduYXdvZ2lu");
      [reflexivity | reflexivity | discriminate].
  - apply (fails_DecodeError _ _ "Basic" "dXNlcl9sb2dpbjp1c2VyX3Bhc3N3b3Jk-");
      [reflexivity | reflexivity | reflexivity | discriminate | reflexivity].
  - apply (fails_UnsupportedSourceForSplit _ _ "Bearer"
             "dXNlcl9sb2dpbjp1c2VyX3Bhc3N3b3Jk");
      [reflexivity | reflexivity | reflexivity | simpl; auto
      | reflexivity | discriminate].
  - apply (fails_MalformedCredential _ _ "Basic"
             "dXNlcl9sb2dpbnVzZXJfcGFzc3dvcmQ=");
      [reflexivity | reflexivity | reflexivity | simpl; auto
      | reflexivity | reflexivity | vm_compute; reflexivity].
Defined.

(** A converter whose source type holds a space: such a scheme can never be
    the part of a header that precedes its first space. *)
Lemma getToken_unchanged_counterexample :
  let e := {| next := http.HandlerFunc 0;
              config := {| tokenSource := unchanged; encodeToken := false;
                           sourceType := "Custom Scheme";
                           targetType := bearer |} |} in
  tokenSource (config e) = unchanged
  /\ getToken e (sourceType (config e) +:+ " " +:+ "abc")
     = ("", Some SchemeMismatch)
  /\ getToken e (sourceType (config e) +:+ " " +:+ "abc") <> ("abc", None).
Proof. vm_compute. repeat split; discriminate. Qed.

(** C6 (amended). When the source type holds no space and the token source
    is [unchanged], extraction from [source_type + " " + p] succeeds for
    every payload [p], decodable or not, and returns [p] as it is. *)
Theorem getToken_unchanged (e : AuthConverter) (p : string) :
  has_byte " " (sourceType (config e)) = false ->
  tokenSource (config e) = unchanged ->
  getToken e (sourceType (config e) +:+ " " +:+ p) = (p, None).
Proof.
  intros Hsp Hts. rewrite getToken_source_scheme by assumption.
  now rewrite Hts.
Qed.

Lemma getToken_unchanged_witness :
  let e := test_converter unchanged in
  has_byte " " (sourceType (config e)) = false
  /\ tokenSource (config e) = unchanged
  /\ getToken e (sourceType (config e) +:+ " " +:+ "not/base64!")
     = ("not/base64!", None).
Proof.
  refine (conj eq_refl (conj eq_refl _)).
  apply (getToken_unchanged (test_converter unchanged) "not/base64!");
    reflexivity.
Defined.

Lemma getToken_decoded_counterexample :
  let e := {| next := http.HandlerFunc 0;
              config := {| tokenSource := decoded; encodeToken := false;
                           sourceType := "Custom Scheme";
                           targetType := bearer |} |} in
  tokenSource (config e) = decoded
  /\ valid_base64 "YTtkbmdhb3VpcmduYXdvZ2lu" = true
  /\ getToken e (sourceType (config e) +:+ " " +:+ "YTtkbmdhb3VpcmduYXdvZ2lu")
     = ("", Some SchemeMismatch)
  /\ getToken e (sourceType (config e) +:+ " " +:+ "YTtkbmdhb3VpcmduYXdvZ2lu")
     <> ((base64.DecodeString "YTtkbmdhb3VpcmduYXdvZ2lu").1, None).
Proof. vm_compute. repeat split; discriminate. Qed.

(** C7 (amended). When the source type holds no space, the token source is
    [decoded] and [p] is valid padded base64, extraction from
    [source_type + " " + p] succeeds and returns the decoded bytes of [p],
    whether or not they hold a colon and whether or not the source type is
    ["Basic"]. *)
Theorem getToken_decoded (e : AuthConverter) (p : string) :
  has_byte " " (sourceType (config e)) = false ->
  tokenSource (config e) = decoded ->
  valid_base64 p = true ->
  getToken e (sourceType (config e) +:+ " " +:+ p)
  = ((base64.DecodeString p).1, None).
Proof.
  intros Hsp Hts Hvalid. rewrite getToken_source_scheme by assumption.
  rewrite Hts, (DecodeString_valid _ Hvalid). reflexivity.
Qed.

Lemma getToken_decoded_witness :
  let e := {| next := http.HandlerFunc 0;
              config := {| tokenSource := decoded; encodeToken := false;
                           sourceType := bearer; targetType := digest |} |} in
  has_byte " " (sourceType (config e)) = false
  /\ tokenSource (config e) = decoded
  /\ valid_base64 "YTtkbmdhb3VpcmduYXdvZ2lu" = true
  /\ (base64.DecodeString "YTtkbmdhb3VpcmduYXdvZ2lu").1 = "a;dngaouirgnawogin"
  /\ getToken e (sourceType (config e) +:+ " " +:+ "YTtkbmdhb3VpcmduYXdvZ2lu")
     = ((base64.DecodeString "YTtkbmdhb3VpcmduYXdvZ2lu").1, None).
Proof.
  refine (conj eq_refl (conj eq_refl (conj eq_refl (conj _ _)))).
  - vm_compute. reflexivity.
  - apply getToken_decoded; reflexivity.
Defined.

(** ** Properties of the request hook *)

(** C2. Whenever extraction fails, with whatever error, [ServeHTTP] leaves
    the request (and the response) headers as they were; and in every case,
    success or failure, it makes exactly one call, to the next handler,
    passing on the request as it stands. *)
Theorem ServeHTTP_failure_passes_through (e : AuthConverter) (w : http.World) :
  (forall err : error,
     (getToken e (http.Get (http.req_Header w) HeaderName)).2 = Some err ->
     http.req_Header (ServeHTTP e w) = http.req_Header w
     /\ http.rw_Header (ServeHTTP e w) = http.rw_Header w)
  /\ http.calls (ServeHTTP e w)
     = http.calls w
       ++ [http.Call_ServeHTTP (next e) (http.rw_Header (ServeHTTP e w))
             (http.req_Header (ServeHTTP e w))].
Proof.
  unfold ServeHTTP.
  destruct (getToken e (http.Get (http.req_Header w) HeaderName)) as [token [err|]];
    cbn [snd]; split; try reflexivity.
  - intros _ _. split; reflexivity.
  - intros err Herr. discriminate Herr.
Qed.

Lemma ServeHTTP_failure_passes_through_witness :
  let e := test_converter combined in
  let w := test_world "Bearer YTtkbmdhb3VpcmduYXdvZ2lu" in
  (getToken e (http.Get (http.req_Header w) HeaderName)).2 = Some SchemeMismatch
  /\ http.req_Header (ServeHTTP e w) = http.req_Header w
  /\ http.calls (ServeHTTP e w)
     = [http.Call_ServeHTTP (next e) (http.rw_Header w) (http.req_Header w)].
Proof.
  intros e w.
  assert (Herr : (getToken e (http.Get (http.req_Header w) HeaderName)).2
                 = Some SchemeMismatch) by (vm_compute; reflexivity).
  destruct (ServeHTTP_failure_passes_through e w) as [Hsame Hcalls].
  destruct (Hsame SchemeMismatch Herr) as [Hreq Hrw].
  split; [exact Herr|]. split; [exact Hreq|].
  rewrite Hcalls, Hreq, Hrw. reflexivity.
Defined.

(** C4. Whenever extraction succeeds with token [t], [ServeHTTP] sets the
    Authorization header of the request to [target_type + " " + t'], where
    [t'] is [t], or its standard base64 encoding when [encode_token] is
    set; the new value replaces all the values the header had, and the
    response header is not touched. *)
Theorem ServeHTTP_sets_request_header (e : AuthConverter) (w : http.World)
    (t : string) :
  getToken e (http.Get (http.req_Header w) HeaderName) = (t, None) ->
  let t' := if encodeToken (config e) then base64.EncodeToString t else t in
  http.req_Header (ServeHTTP e w)
  = <[HeaderName := [targetType (config e) +:+ " " +:+ t']]> (http.req_Header w)
  /\ http.Get (http.req_Header (ServeHTTP e w)) HeaderName
     = targetType (config e) +:+ " " +:+ t'
  /\ http.rw_Header (ServeHTTP e w) = http.rw_Header w.
Proof.
  intros Htok t'. split; [|split].
  - now rewrite (ServeHTTP_success e w t Htok).
  - now apply ServeHTTP_success_Get.
  - now rewrite (ServeHTTP_success e w t Htok).
Qed.

Lemma ServeHTTP_sets_request_header_witness :
  let e := {| next := http.HandlerFunc 0;
              config := {| tokenSource := combined; encodeToken := true;
                           sourceType := basic; targetType := bearer |} |} in
  let w := test_world "Basic dXNlcl9sb2dpbjp1c2VyX3Bhc3N3b3Jk" in
  getToken e (http.Get (http.req_Header w) HeaderName)
  = ("user_loginuser_password", None)
  /\ http.Get (http.req_Header (ServeHTTP e w)) HeaderName
     = "Bearer " +:+ base64.EncodeToString "user_loginuser_password".
Proof.
  intros e w.
  assert (Htok : getToken e (http.Get (http.req_Header w) HeaderName)
                 = ("user_loginuser_password", None)) by (vm_compute; reflexivity).
  split; [exact Htok|].
  exact (proj1 (proj2 (ServeHTTP_sets_request_header e w _ Htok))).
Defined.

(** C8. When [encode_token] is set, the token [x] that was extracted is put
    in the header as its standard base64 encoding, and decoding what was put
    there gives [x] back. *)
Theorem ServeHTTP_encoded_token_round_trip (e : AuthConverter) (w : http.World)
    (x : string) :
  getToken e (http.Get (http.req_Header w) HeaderName) = (x, None) ->
  encodeToken (config e) = true ->
  http.Get (http.req_Header (ServeHTTP e w)) HeaderName
  = targetType (config e) +:+ " " +:+ base64.EncodeToString x
  /\ base64.DecodeString (base64.EncodeToString x) = (x, None).
Proof.
  intros Htok Henc. split; [|apply DecodeString_EncodeToString].
  rewrite (ServeHTTP_success_Get e w x Htok). now rewrite Henc.
Qed.

Lemma ServeHTTP_encoded_token_round_trip_witness :
  let e := {| next := http.HandlerFunc 0;
              config := {| tokenSource := password; encodeToken := true;
                           sourceType := basic; targetType := digest |} |} in
  let w := test_world "Basic dXNlcl9sb2dpbjp1c2VyX3Bhc3N3b3Jk" in
  getToken e (http.Get (http.req_Header w) HeaderName) = ("user_password", None)
  /\ encodeToken (config e) = true
  /\ http.Get (http.req_Header (ServeHTTP e w)) HeaderName
     = "Digest " +:+ base64.EncodeToString "user_password"
  /\ base64.DecodeString (base64.EncodeToString "user_password")
     = ("user_password", None).
Proof.
  intros e w.
  assert (Htok : getToken e (http.Get (http.req_Header w) HeaderName)
                 = ("user_password", None)) by (vm_compute; reflexivity).
  split; [exact Htok|]. split; [reflexivity|].
  exact (ServeHTTP_encoded_token_round_trip e w _ Htok eq_refl).
Defined.

(** With an empty credential, a source type other than ["Basic"] is reported
    before the missing colon; and a source type that holds a space is never
    the scheme read from the header. *)
Lemma getToken_empty_payload_counterexample :
  let e := {| next := http.HandlerFunc 0;
              config := {| tokenSource := username; encodeToken := false;
                           sourceType := bearer; targetType := digest |} |} in
  let e' := {| next := http.HandlerFunc 0;
               config := {| tokenSource := decoded; encodeToken := false;
                            sourceType := "Custom Scheme";
                            targetType := bearer |} |} in
  (In (tokenSource (config e)) splitting_sources
   /\ getToken e (sourceType (config e) +:+ " ")
      = ("", Some UnsupportedSourceForSplit)
   /\ getToken e (sourceType (config e) +:+ " ") <> ("", Some MalformedCredential))
  /\ (tokenSource (config e') = decoded
      /\ getToken e' (sourceType (config e') +:+ " ") = ("", Some SchemeMismatch)
      /\ getToken e' (sourceType (config e') +:+ " ") <> ("", None)).
Proof.
  split; (split; [try (left; reflexivity); reflexivity|]);
    vm_compute; (split; [reflexivity | discriminate]).
Qed.

(** C9 (amended). For a header made of the source type, one space and an
    empty payload, extraction never fails with [MalformedHeader].  When the
    source type holds no space: with token source [decoded] extraction
    succeeds with the empty token and the header becomes
    [target_type + " "]; with [username], [password] or [combined] it fails
    with [MalformedCredential] when the source type is ["Basic"] and with
    [UnsupportedSourceForSplit] when it is not. *)
Theorem getToken_empty_payload (e : AuthConverter) :
  (getToken e (sourceType (config e) +:+ " ")).2 <> Some MalformedHeader
  /\ (has_byte " " (sourceType (config e)) = false ->
      tokenSource (config e) = decoded ->
      getToken e (sourceType (config e) +:+ " ") = ("", None)
      /\ forall w : http.World,
           http.Get (http.req_Header w) HeaderName = sourceType (config e) +:+ " " ->
           http.Get (http.req_Header (ServeHTTP e w)) HeaderName
           = targetType (config e) +:+ " ")
  /\ (In (tokenSource (config e)) splitting_sources ->
      sourceType (config e) = "Basic" ->
      getToken e (sourceType (config e) +:+ " ")
      = ("", Some MalformedCredential))
  /\ (has_byte " " (sourceType (config e)) = false ->
      In (tokenSource (config e)) splitting_sources ->
      sourceType (config e) <> "Basic" ->
      getToken e (sourceType (config e) +:+ " ")
      = ("", Some UnsupportedSourceForSplit)).
Proof.
  split; [|split; [|split]].
  - destruct (cut_at_first (sourceType (config e) +:+ " ") " ")
      as [Habs | (u & p & Hcut & Hu)].
    + rewrite has_byte_append in Habs. cbn in Habs.
      rewrite orb_true_r in Habs. discriminate Habs.
    + unfold getToken. rewrite Hcut, (SplitN_2_first _ _ _ Hu).
      repeat case_match; cbn [snd]; discriminate.
  - intros Hsp Hts.
    assert (Htok : getToken e (sourceType (config e) +:+ " ") = ("", None)).
    { change (sourceType (config e) +:+ " ")
        with (sourceType (config e) +:+ " " +:+ "").
      rewrite getToken_source_scheme by assumption. now rewrite Hts. }
    split; [exact Htok|]. intros w Hw.
    rewrite <- Hw in Htok. rewrite (ServeHTTP_success_Get e w "" Htok).
    now destruct (encodeToken (config e)).
  - intros Hts Hst.
    change (sourceType (config e) +:+ " ")
      with (sourceType (config e) +:+ " " +:+ "").
    rewrite getToken_source_scheme by now rewrite Hst.
    destruct (splitting_source_cases _ Hts) as [-> ->]. now rewrite Hst.
  - intros Hsp Hts Hst.
    change (sourceType (config e) +:+ " ")
      with (sourceType (config e) +:+ " " +:+ "").
    rewrite getToken_source_scheme by assumption.
    destruct (splitting_source_cases _ Hts) as [-> ->].
    apply String.eqb_neq in Hst. unfold basic. now rewrite Hst.
Qed.

Lemma getToken_empty_payload_witness :
  getToken (test_converter decoded) "Basic " = ("", None)
  /\ http.Get (http.req_Header (ServeHTTP (test_converter decoded) (test_world "Basic ")))
       HeaderName = "Bearer "
  /\ getToken (test_converter password) "Basic " = ("", Some MalformedCredential)
  /\ getToken
       {| next := http.HandlerFunc 0;
          config := {| tokenSource := password; encodeToken := false;
                       sourceType := digest; targetType := bearer |} |}
       "Digest "
     = ("", Some UnsupportedSourceForSplit).
Proof.
  refine (conj _ (conj _ (conj _ _))).
  - apply (proj1 (proj2 (getToken_empty_payload (test_converter decoded))));
      reflexivity.
  - apply (proj1 (proj2 (getToken_empty_payload (test_converter decoded))));
      reflexivity.
  - apply (proj1 (proj2 (proj2 (getToken_empty_payload (test_converter password)))));
      [right; left; reflexivity | reflexivity].
  - apply (proj2 (proj2 (proj2 (getToken_empty_payload
             {| next := http.HandlerFunc 0;
                config := {| tokenSource := password; encodeToken := false;
                             sourceType := digest; targetType := bearer |} |}))));
      [reflexivity | right; left; reflexivity | discriminate].
Defined.

(** With a space in the source type the header is left alone; with an empty
    payload what is put in the header is the payload itself. *)
Lemma ServeHTTP_unchanged_encoded_counterexample :
  let e := {| next := http.HandlerFunc 0;
              config := {| tokenSource := unchanged; encodeToken := true;
                           sourceType := "Custom Scheme";
                           targetType := bearer |} |} in
  let w := test_world (sourceType (config e) +:+ " " +:+ "YWJj") in
  let e' := {| next := http.HandlerFunc 0;
               config := {| tokenSource := unchanged; encodeToken := true;
                            sourceType := basic; targetType := bearer |} |} in
  let w' := test_world (sourceType (config e') +:+ " " +:+ "") in
  (http.Get (http.req_Header (ServeHTTP e w)) HeaderName = "Custom Scheme YWJj"
   /\ http.Get (http.req_Header (ServeHTTP e w)) HeaderName
      <> targetType (config e) +:+ " " +:+ base64.EncodeToString "YWJj")
  /\ http.Get (http.req_Header (ServeHTTP e' w')) HeaderName
     = targetType (config e') +:+ " " +:+ "".
Proof. vm_compute. repeat split; discriminate. Qed.

(** C10 (amended). When the source type holds no space, the token source is
    [unchanged] and [encode_token] is set, a header [source_type + " " + p]
    becomes [target_type + " " + base64(p)]: the payload is encoded once
    more, and so differs from [p] whenever [p] is not empty. *)
Theorem ServeHTTP_unchanged_encoded (e : AuthConverter) (w : http.World)
    (p : string) :
  has_byte " " (sourceType (config e)) = false ->
  tokenSource (config e) = unchanged ->
  encodeToken (config e) = true ->
  http.Get (http.req_Header w) HeaderName = sourceType (config e) +:+ " " +:+ p ->
  http.Get (http.req_Header (ServeHTTP e w)) HeaderName
  = targetType (config e) +:+ " " +:+ base64.EncodeToString p
  /\ (p <> "" -> base64.EncodeToString p <> p).
Proof.
  intros Hsp Hts Henc Hw. split; [|apply Encode_differs].
  assert (Htok : getToken e (http.Get (http.req_Header w) HeaderName) = (p, None)).
  { rewrite Hw, getToken_source_scheme by assumption. now rewrite Hts. }
  rewrite (ServeHTTP_success_Get e w p Htok). now rewrite Henc.
Qed.

Lemma ServeHTTP_unchanged_encoded_witness :
  let e := {| next := http.HandlerFunc 0;
              config := {| tokenSource := unchanged; encodeToken := true;
                           sourceType := basic; targetType := bearer |} |} in
  let w := test_world "Basic YWJj" in
  http.Get (http.req_Header (ServeHTTP e w)) HeaderName
  = "Bearer " +:+ base64.EncodeToString "YWJj"
  /\ base64.EncodeToString "YWJj" <> "YWJj".
Proof.
  intros e w.
  destruct (ServeHTTP_unchanged_encoded e w "YWJj" eq_refl eq_refl eq_refl eq_refl)
    as [Hget Hne].
  split; [exact Hget | apply Hne; discriminate].
Defined.

(** ** Properties of the construction entry point *)

Lemma validConfig_recognized (ts : TokenSource) :
  default false (validConfig !! ts) = true <-> In ts recognized_sources.
Proof.
  split.
  - intros H. destruct (decide (In ts recognized_sources)) as [Hin | Hout];
      [exact Hin|]. exfalso. unfold validConfig in H.
    rewrite !lookup_insert_ne, lookup_empty in H
      by (intros <-; apply Hout; cbn; tauto).
    discriminate H.
  - intros [<- | [<- | [<- | [<- | [<- | []]]]]]; vm_compute; reflexivity.
Qed.

(** C3. [New] returns a handler exactly when the configured token source is
    one of [username], [password], [combined], [unchanged] and [decoded];
    for any other value it returns no handler and a configuration error. *)
Theorem New_validates_token_source (next : http.Handler) (cfg : Config) :
  ((New next cfg).1 <> None <-> In (tokenSource cfg) recognized_sources)
  /\ (In (tokenSource cfg) recognized_sources ->
      New next cfg = (Some {| next := next; config := cfg |}, None))
  /\ (~ In (tokenSource cfg) recognized_sources ->
      New next cfg = (None, Some (errors_New "invalid token source"))).
Proof.
  pose proof (validConfig_recognized (tokenSource cfg)) as Hvalid.
  unfold New.
  destruct (default false (validConfig !! tokenSource cfg)); cbn [negb fst].
  - assert (Hin : In (tokenSource cfg) recognized_sources) by now apply Hvalid.
    repeat split; try congruence; tauto.
  - assert (Hout : ~ In (tokenSource cfg) recognized_sources).
    { intros Hin. apply Hvalid in Hin. discriminate Hin. }
    repeat split; try congruence; tauto.
Qed.

Lemma New_validates_token_source_witness :
  New (http.HandlerFunc 0) CreateConfig
  = (Some {| next := http.HandlerFunc 0; config := CreateConfig |}, None)
  /\ New (http.HandlerFunc 0)
       {| tokenSource := "not_a_source"; encodeToken := true;
          sourceType := ""; targetType := "" |}
     = (None, Some (errors_New "invalid token source")).
Proof.
  split.
  - apply (proj1 (proj2 (New_validates_token_source _ CreateConfig))).
    right; right; left; reflexivity.
  - apply (proj2 (proj2 (New_validates_token_source _ _))).
    cbn. intros [H | [H | [H | [H | [H | []]]]]]; discriminate H.
Defined.

(** The token source [unchanged] is written ["full"] in a configuration. *)
Example New_unchanged_is_full :
  New (http.HandlerFunc 0)
    {| tokenSource := "full"; encodeToken := false;
       sourceType := basic; targetType := bearer |}
  = (Some (test_converter unchanged), None)
  /\ New (http.HandlerFunc 0)
       {| tokenSource := "unchanged"; encodeToken := false;
          sourceType := basic; targetType := bearer |}
     = (None, Some (errors_New "invalid token source")).
Proof. vm_compute. split; reflexivity. Qed.

(** ** The first variant *)

(** X17. When extraction succeeds, the first variant writes ["Bearer "] and
    the token (encoded when [encodeToken] is set) to the Authorization
    header of the response writer and leaves the request as it was. *)
Lemma V1_ServeHTTP_sets_response_header (e : V1.AuthConverter) (w : http.World)
    (t : string) :
  V1.getToken e (http.Get (http.req_Header w) HeaderName) = (t, None) ->
  http.req_Header (V1.ServeHTTP e w) = http.req_Header w
  /\ http.Get (http.rw_Header (V1.ServeHTTP e w)) HeaderName
     = "Bearer " +:+ (if V1.ac_encodeToken e then base64.EncodeToString t else t).
Proof.
  intros Htok. unfold V1.ServeHTTP. rewrite Htok. cbn.
  split; [reflexivity | apply Get_Set].
Qed.

(** ** [strings.SplitN] with [n = 2]: the two outcomes *)

Lemma SplitN_2_cases (s : string) (sep : ascii) :
  (has_byte sep s = false /\ strings.SplitN s sep 2 = [s])
  \/ (exists u p, s = u +:+ String sep p /\ has_byte sep u = false
                  /\ strings.SplitN s sep 2 = [u; p]).
Proof.
  destruct (cut_at_first s sep) as [Habs | (u & p & -> & Hu)].
  - left. split; [exact Habs | now apply SplitN_2_absent].
  - right. exists u, p. repeat split; [exact Hu | now apply SplitN_2_first].
Qed.

(** ** [getToken]: what a success says about the header *)

Lemma getToken_success_scheme (e : AuthConverter) (header t : string) :
  getToken e header = (t, None) ->
  has_byte " " (sourceType (config e)) = false
  /\ exists payload, header = sourceType (config e) +:+ " " +:+ payload.
Proof.
  intros Htok.
  destruct (SplitN_2_cases header " ") as [[Habs _] | (u & p & -> & Hu & _)].
  - rewrite (getToken_without_space e header Habs) in Htok. discriminate Htok.
  - destruct (String.eqb_spec u (sourceType (config e))) as [-> | Hne].
    + split; [exact Hu | now exists p].
    + change (u +:+ String " " p) with (u +:+ " " +:+ p) in Htok.
      rewrite (getToken_other_scheme e u p Hu Hne) in Htok. discriminate Htok.
Qed.

Lemma decoded_split_cases (d : string) :
  (has_byte ":" d = false /\ strings.SplitN d ":" 2 = [d])
  \/ (exists u p, d = u +:+ ":" +:+ p /\ has_byte ":" u = false
                  /\ strings.SplitN d ":" 2 = [u; p]).
Proof. exact (SplitN_2_cases d ":"). Qed.

Lemma getToken_split_payload (e : AuthConverter) (payload u p : string) :
  sourceType (config e) = "Basic" ->
  In (tokenSource (config e)) splitting_sources ->
  base64.DecodeString payload = (u +:+ ":" +:+ p, None) ->
  has_byte ":" u = false ->
  getToken e ("Basic " +:+ payload)
  = (selected (tokenSource (config e)) u p, None).
Proof.
  intros Hst Hts Hdec Hu.
  change ("Basic " +:+ payload) with ("Basic" +:+ " " +:+ payload).
  rewrite <- Hst at 1.
  rewrite getToken_source_scheme by (rewrite Hst; reflexivity).
  destruct (splitting_source_cases _ Hts) as [-> ->].
  rewrite Hdec, Hst. cbn [String.eqb Ascii.eqb Bool.eqb basic negb].
  change (u +:+ ":" +:+ p) with (u +:+ String ":" p).
  rewrite (SplitN_2_first _ _ _ Hu). unfold selected.
  destruct Hts as [<- | [<- | [<- | []]]]; reflexivity.
Qed.

(** X1. For a Basic header whose payload decodes to [u + ":" + p] with no colon in
    [u], extraction with token source [username] returns [u]. *)
Theorem getToken_username (e : AuthConverter) (payload u p : string) :
  sourceType (config e) = "Basic" ->
  tokenSource (config e) = username ->
  base64.DecodeString payload = (u +:+ ":" +:+ p, None) ->
  has_byte ":" u = false ->
  getToken e ("Basic " +:+ payload) = (u, None).
Proof.
  intros Hst Hts Hdec Hu.
  rewrite (getToken_split_payload e payload u p Hst) by
    (try assumption; rewrite Hts; left; reflexivity).
  now rewrite Hts.
Qed.

Lemma getToken_username_witness :
  base64.DecodeString "dXNlcjpwYTpzcw==" = ("user" +:+ ":" +:+ "pa:ss", None)
  /\ has_byte ":" "user" = false
  /\ getToken (test_converter username) ("Basic " +:+ "dXNlcjpwYTpzcw==")
     = ("user", None).
Proof.
  assert (Hdec : base64.DecodeString "dXNlcjpwYTpzcw=="
                 = ("user" +:+ ":" +:+ "pa:ss", None)) by (vm_compute; reflexivity).
  refine (conj Hdec (conj eq_refl _)).
  exact (getToken_username (test_converter username) _ "user" "pa:ss"
           eq_refl eq_refl Hdec eq_refl).
Defined.

(** X2. For a Basic header whose payload decodes to [u + ":" + p] with no colon in
    [u], extraction with token source [password] returns [p], whole: only
    the first colon splits the credential, later ones stay in the password. *)
Theorem getToken_password (e : AuthConverter) (payload u p : string) :
  sourceType (config e) = "Basic" ->
  tokenSource (config e) = password ->
  base64.DecodeString payload = (u +:+ ":" +:+ p, None) ->
  has_byte ":" u = false ->
  getToken e ("Basic " +:+ payload) = (p, None).
Proof.
  intros Hst Hts Hdec Hu.
  rewrite (getToken_split_payload e payload u p Hst) by
    (try assumption; rewrite Hts; right; left; reflexivity).
  now rewrite Hts.
Qed.

Lemma getToken_password_witness :
  base64.DecodeString "dXNlcjpwYTpzcw==" = ("user" +:+ ":" +:+ "pa:ss", None)
  /\ has_byte ":" "user" = false
  /\ getToken (test_converter password) ("Basic " +:+ "dXNlcjpwYTpzcw==")
     = ("pa:ss", None).
Proof.
  assert (Hdec : base64.DecodeString "dXNlcjpwYTpzcw=="
                 = ("user" +:+ ":" +:+ "pa:ss", None)) by (vm_compute; reflexivity).
  refine (conj Hdec (conj eq_refl _)).
  exact (getToken_password (test_converter password) _ "user" "pa:ss"
           eq_refl eq_refl Hdec eq_refl).
Defined.

(** X3. With token source [username], [password] or [combined], extraction only
    succeeds when the source type is ["Basic"], the header is ["Basic "]
    followed by a payload that decodes to [u + ":" + p] with no colon in
    [u], and the token is the part of it the source selects. *)
Theorem getToken_split_sound (e : AuthConverter) (header t : string) :
  In (tokenSource (config e)) splitting_sources ->
  getToken e header = (t, None) ->
  sourceType (config e) = "Basic"
  /\ exists payload u p,
       header = "Basic " +:+ payload
       /\ base64.DecodeString payload = (u +:+ ":" +:+ p, None)
       /\ has_byte ":" u = false
       /\ t = selected (tokenSource (config e)) u p.
Proof.
  intros Hts Htok.
  destruct (getToken_success_scheme e header t Htok) as (Hsp & payload & ->).
  rewrite getToken_source_scheme in Htok by assumption.
  destruct (splitting_source_cases _ Hts) as [Hun Hde].
  rewrite Hun, Hde in Htok.
  destruct (base64.DecodeString payload) as [d [c|]] eqn:Hdec;
    [discriminate Htok|].
  destruct (String.eqb_spec (sourceType (config e)) basic) as [Hst | Hst];
    cbn [negb] in Htok; [|discriminate Htok].
  split; [exact Hst|]. exists payload.
  destruct (decoded_split_cases d) as [[_ Hsplit] | (u & p & -> & Hu & Hsplit)];
    rewrite Hsplit in Htok; [discriminate Htok|].
  exists u, p. rewrite Hst. repeat split; try assumption.
  unfold selected.
  destruct Hts as [Heq | [Heq | [Heq | []]]]; rewrite <- Heq in *;
    cbn in Htok; injection Htok as <-; reflexivity.
Qed.

Lemma getToken_split_sound_witness :
  let e := test_converter combined in
  let header := "Basic dXNlcjpwYTpzcw==" in
  In (tokenSource (config e)) splitting_sources
  /\ getToken e header = ("userpa:ss", None)
  /\ exists payload u p,
       header = "Basic " +:+ payload
       /\ base64.DecodeString payload = (u +:+ ":" +:+ p, None)
       /\ has_byte ":" u = false
       /\ "userpa:ss" = selected (tokenSource (config e)) u p.
Proof.
  intros e header.
  assert (Hin : In (tokenSource (config e)) splitting_sources)
    by (right; right; left; reflexivity).
  assert (Htok : getToken e header = ("userpa:ss", None))
    by (vm_compute; reflexivity).
  refine (conj Hin (conj Htok _)).
  exact (proj2 (getToken_split_sound e header _ Hin Htok)).
Defined.

(** X4. With token source [unchanged], extraction only succeeds on a header
    that is the source type, a space and the token itself, and only for a
    source type without a space. *)
Theorem getToken_unchanged_sound (e : AuthConverter) (header t : string) :
  tokenSource (config e) = unchanged ->
  getToken e header = (t, None) ->
  has_byte " " (sourceType (config e)) = false
  /\ header = sourceType (config e) +:+ " " +:+ t.
Proof.
  intros Hts Htok.
  destruct (getToken_success_scheme e header t Htok) as (Hsp & payload & ->).
  rewrite getToken_source_scheme in Htok by assumption.
  rewrite Hts in Htok. cbn in Htok. injection Htok as ->. now split.
Qed.

Lemma getToken_unchanged_sound_witness :
  let e := test_converter unchanged in
  getToken e "Basic not/base64!" = ("not/base64!", None)
  /\ "Basic not/base64!" = sourceType (config e) +:+ " " +:+ "not/base64!".
Proof.
  intros e.
  assert (Htok : getToken e "Basic not/base64!" = ("not/base64!", None))
    by (vm_compute; reflexivity).
  refine (conj Htok _).
  exact (proj2 (getToken_unchanged_sound e _ _ eq_refl Htok)).
Defined.

(** X5. With token source [decoded], extraction only succeeds on a header that
    is the source type, a space and a valid base64 payload, and the token
    is what that payload decodes to. *)
Theorem getToken_decoded_sound (e : AuthConverter) (header t : string) :
  tokenSource (config e) = decoded ->
  getToken e header = (t, None) ->
  has_byte " " (sourceType (config e)) = false
  /\ exists payload,
       header = sourceType (config e) +:+ " " +:+ payload
       /\ valid_base64 payload = true
       /\ base64.DecodeString payload = (t, None).
Proof.
  intros Hts Htok.
  destruct (getToken_success_scheme e header t Htok) as (Hsp & payload & ->).
  split; [exact Hsp|]. exists payload. split; [reflexivity|].
  rewrite getToken_source_scheme in Htok by assumption.
  rewrite Hts in Htok. cbn [String.eqb Ascii.eqb Bool.eqb decoded unchanged] in Htok.
  destruct (base64.DecodeString payload) as [d [c|]] eqn:Hdec;
    [discriminate Htok|].
  injection Htok as ->. split; [|reflexivity].
  apply DecodeString_accepts. now rewrite Hdec.
Qed.

Lemma getToken_decoded_sound_witness :
  let e := test_converter decoded in
  getToken e "Basic YTtkbmdhb3VpcmduYXdvZ2lu" = ("a;dngaouirgnawogin", None)
  /\ exists payload,
       "Basic YTtkbmdhb3VpcmduYXdvZ2lu" = sourceType (config e) +:+ " " +:+ payload
       /\ valid_base64 payload = true
       /\ base64.DecodeString payload = ("a;dngaouirgnawogin", None).
Proof.
  intros e.
  assert (Htok : getToken e "Basic YTtkbmdhb3VpcmduYXdvZ2lu"
                 = ("a;dngaouirgnawogin", None)) by (vm_compute; reflexivity).
  refine (conj Htok _).
  exact (proj2 (getToken_decoded_sound e _ _ eq_refl Htok)).
Defined.

(** ** [getToken] with a token source outside the recognized ones *)

(** X6. With a token source that is not one of the five recognized ones,
    extraction fails on every header, with the empty token. *)
Theorem getToken_unrecognized_source (e : AuthConverter) (header : string) :
  ~ In (tokenSource (config e)) recognized_sources ->
  exists err, getToken e header = ("", Some err).
Proof.
  intros Hts.
  assert (Hne : forall ts, In ts recognized_sources ->
                           String.eqb (tokenSource (config e)) ts = false).
  { intros ts Hin. apply String.eqb_neq. intros Heq. apply Hts. now rewrite Heq. }
  destruct (SplitN_2_cases header " ") as [[Habs _] | (u & p & -> & Hu & _)].
  - rewrite (getToken_without_space e header Habs). eauto.
  - change (u +:+ String " " p) with (u +:+ " " +:+ p).
    destruct (String.eqb_spec u (sourceType (config e))) as [-> | Hneq];
      [|rewrite (getToken_other_scheme e u p Hu Hneq); eauto].
    rewrite getToken_source_scheme by assumption.
    rewrite !Hne by (cbn; tauto).
    destruct (base64.DecodeString p) as [d [c|]]; [eauto|].
    destruct (negb _); [eauto|].
    destruct (strings.SplitN d ":" 2) as [|part0 [|part1 [|]]]; eauto.
Qed.

Lemma getToken_unrecognized_source_witness :
  ~ In (tokenSource (config (test_converter "not_a_source"))) recognized_sources
  /\ exists err,
       getToken (test_converter "not_a_source")
         "Basic dXNlcl9sb2dpbjp1c2VyX3Bhc3N3b3Jk"
       = ("", Some err).
Proof.
  assert (Hout : ~ In (tokenSource (config (test_converter "not_a_source")))
                      recognized_sources).
  { cbn. intros [H | [H | [H | [H | [H | []]]]]]; discriminate H. }
  refine (conj Hout _).
  exact (getToken_unrecognized_source (test_converter "not_a_source") _ Hout).
Defined.

(** ** [getToken]: when decoding is what fails *)

(** X7. When the source type holds no space and the token source is not
    [unchanged], extraction from [source_type + " " + p] fails with the
    decoding error exactly when [p] is not valid padded base64. *)
Theorem getToken_DecodeError_iff (e : AuthConverter) (p : string) :
  has_byte " " (sourceType (config e)) = false ->
  tokenSource (config e) <> unchanged ->
  getToken e (sourceType (config e) +:+ " " +:+ p) = ("", Some DecodeError)
  <-> valid_base64 p = false.
Proof.
  intros Hsp Hts. rewrite getToken_source_scheme by assumption.
  apply String.eqb_neq in Hts. rewrite Hts.
  destruct (valid_base64 p) eqn:Hvalid.
  - rewrite (DecodeString_valid p Hvalid). split; [|discriminate].
    intros H. repeat case_match; discriminate H.
  - destruct (DecodeString_invalid p Hvalid) as (d & c & ->). tauto.
Qed.

Lemma getToken_DecodeError_iff_witness :
  let e := test_converter password in
  valid_base64 "dXNlcl9sb2dpbjp1c2VyX3Bhc3N3b3Jk-" = false
  /\ getToken e (sourceType (config e) +:+ " " +:+ "dXNlcl9sb2dpbjp1c2VyX3Bhc3N3b3Jk-")
     = ("", Some DecodeError).
Proof.
  intros e. refine (conj eq_refl _).
  apply (proj2 (getToken_DecodeError_iff e "dXNlcl9sb2dpbjp1c2VyX3Bhc3N3b3Jk-"
                  eq_refl ltac:(discriminate))).
  reflexivity.
Defined.

(** ** Base64: line breaks in the input are ignored *)

Lemma newline_not_value (c : ascii) :
  base64.is_newline c = true -> negb (base64.decodeMap c =? 255) = false.
Proof.
  intros Hnl. rewrite decodeMap_is_value.
  destruct (is_value c) eqn:Hval; [|reflexivity].
  rewrite (is_value_not_newline c Hval) in Hnl. discriminate Hnl.
Qed.

Lemma skip_newlines_strip (s : string) :
  base64.skip_newlines (strip_newlines s) = strip_newlines s.
Proof.
  induction s as [|c s IH]; [reflexivity|]. cbn [strip_newlines].
  destruct (base64.is_newline c) eqn:Hc; [exact IH|].
  cbn [base64.skip_newlines]. now rewrite Hc.
Qed.

Lemma strip_newlines_length (s : string) :
  (String.length (strip_newlines s) <= String.length s)%nat.
Proof.
  induction s as [|c s IH]; cbn [strip_newlines String.length]; [lia|].
  destruct (base64.is_newline c); cbn [String.length]; lia.
Qed.

Lemma skip_newlines_empty_strip (s : string) :
  base64.skip_newlines s = "" <-> strip_newlines s = "".
Proof.
  pose proof (strip_newlines_empty s) as H.
  destruct (base64.skip_newlines s), (strip_newlines s); cbn in H;
    split; congruence.
Qed.

Lemma decodePadding_strip (dbuf : list Z) (rest : string) :
  base64.decodePadding dbuf (strip_newlines rest)
  = (strip_newlines (base64.decodePadding dbuf rest).1.1,
     (base64.decodePadding dbuf rest).1.2,
     (base64.decodePadding dbuf rest).2).
Proof.
  assert (Htail : forall r : string,
    (base64.skip_newlines (strip_newlines r),
     base64.quantum_bytes dbuf (List.length dbuf),
     match base64.skip_newlines (strip_newlines r) with
     | EmptyString => None
     | String _ _ => Some base64.CorruptInput
     end)
    = (strip_newlines (base64.skip_newlines r),
       base64.quantum_bytes dbuf (List.length dbuf),
       match base64.skip_newlines r with
       | EmptyString => None
       | String _ _ => Some base64.CorruptInput
       end)).
  { intros r. rewrite skip_newlines_strip, strip_newlines_skip.
    destruct (base64.skip_newlines r) eqn:Hskip.
    - apply skip_newlines_empty_strip in Hskip. now rewrite Hskip.
    - destruct (strip_newlines r) eqn:Hstrip; [|reflexivity].
      apply skip_newlines_empty_strip in Hstrip. congruence. }
  unfold base64.decodePadding.
  destruct (List.length dbuf) as [|[|j]] eqn:Hlen; try reflexivity.
  destruct (S (S j) =? 2)%nat; [|cbn [fst snd]; apply Htail].
  rewrite skip_newlines_strip, <- (strip_newlines_skip rest).
  destruct (base64.skip_newlines rest) as [|c2 r2] eqn:Hskip; [reflexivity|].
  cbn [strip_newlines]. rewrite (skip_newlines_head _ _ _ Hskip).
  destruct (Ascii.eqb c2 base64.StdPadding); [|reflexivity].
  cbn [fst snd]. apply Htail.
Qed.

Lemma decodeQuantum_from_strip (src : string) :
  forall dbuf : list Z,
  base64.decodeQuantum_from dbuf (strip_newlines src)
  = (strip_newlines (base64.decodeQuantum_from dbuf src).1.1,
     (base64.decodeQuantum_from dbuf src).1.2,
     (base64.decodeQuantum_from dbuf src).2).
Proof.
  induction src as [|c rest IH]; intros dbuf.
  - cbn. now destruct (List.length dbuf).
  - cbn [strip_newlines]. destruct (base64.is_newline c) eqn:Hnl.
    + rewrite IH. cbn [base64.decodeQuantum_from].
      now rewrite (newline_not_value c Hnl), Hnl.
    + cbn [base64.decodeQuantum_from]. rewrite Hnl.
      destruct (negb (base64.decodeMap c =? 255)).
      * destruct (List.length dbuf =? 3)%nat; [reflexivity | apply IH].
      * destruct (negb (Ascii.eqb c base64.StdPadding)); [reflexivity|].
        apply decodePadding_strip.
Qed.

Lemma Decode_loop_strip (n : nat) :
  forall (src : string) (fuel fuel' : nat),
  (String.length src <= n)%nat ->
  (String.length src <= fuel)%nat ->
  (String.length (strip_newlines src) <= fuel')%nat ->
  base64.Decode_loop fuel' (strip_newlines src) = base64.Decode_loop fuel src.
Proof.
  induction n as [|n IH]; intros src fuel fuel' Hn Hfuel Hfuel'.
  - destruct src; [|simpl in Hn; lia]. destruct fuel, fuel'; reflexivity.
  - destruct src as [|c r]; [destruct fuel, fuel'; reflexivity|].
    destruct fuel as [|fuel]; [simpl in Hfuel; lia|].
    cbn [base64.Decode_loop]. unfold base64.decodeQuantum.
    pose proof (decodeQuantum_from_strip (String c r) []) as Hq.
    pose proof (decodeQuantum_from_shorter r [] c) as Hshort.
    destruct (base64.decodeQuantum_from [] (String c r)) as [[rest out] err].
    cbn [fst snd String.length] in *.
    destruct (strip_newlines (String c r)) as [|c' r'] eqn:Hstrip.
    + cbn in Hq. injection Hq as Hrest <- <-.
      rewrite <- (IH rest fuel 0%nat) by (rewrite <- ?Hrest; simpl; lia).
      rewrite <- Hrest. destruct fuel'; reflexivity.
    + destruct fuel' as [|fuel']; [simpl in Hfuel'; lia|].
      cbn [base64.Decode_loop]. unfold base64.decodeQuantum.
      pose proof (decodeQuantum_from_shorter r' [] c') as Hshort'.
      rewrite Hq in *. cbn [fst] in Hshort'.
      destruct err; [reflexivity|].
      rewrite (IH rest fuel fuel') by (simpl in Hfuel'; lia). reflexivity.
Qed.

Lemma DecodeString_strip_newlines (p : string) :
  base64.DecodeString (strip_newlines p) = base64.DecodeString p.
Proof.
  unfold base64.DecodeString.
  now apply (Decode_loop_strip (String.length p)).
Qed.

(** X8. Unless the token source is [unchanged], carriage returns and line feeds
    in the payload make no difference to the result of extraction. *)
Theorem getToken_ignores_newlines (e : AuthConverter) (scheme p : string) :
  has_byte " " scheme = false ->
  tokenSource (config e) <> unchanged ->
  getToken e (scheme +:+ " " +:+ strip_newlines p)
  = getToken e (scheme +:+ " " +:+ p).
Proof.
  intros Hsp Hts.
  destruct (String.eqb_spec scheme (sourceType (config e))) as [-> | Hne].
  - rewrite !getToken_source_scheme by assumption.
    apply String.eqb_neq in Hts. now rewrite Hts, DecodeString_strip_newlines.
  - rewrite !getToken_other_scheme by assumption. reflexivity.
Qed.

Lemma getToken_ignores_newlines_witness :
  let e := test_converter password in
  let p := "dXNlcl9sb2dpbjp1" +:+ String "013" (String "010" "c2VyX3Bhc3N3b3Jk") in
  strip_newlines p = "dXNlcl9sb2dpbjp1c2VyX3Bhc3N3b3Jk"
  /\ getToken e ("Basic" +:+ " " +:+ strip_newlines p)
     = getToken e ("Basic" +:+ " " +:+ p).
Proof.
  intros e p. refine (conj eq_refl _).
  apply (getToken_ignores_newlines e "Basic" p); [reflexivity | discriminate].
Defined.

(** ** [ServeHTTP]: what it leaves alone *)

Lemma lookup_Set_other (h : http.Header) (key key' value : string) :
  key <> key' -> http.Set_ h key value !! key' = h !! key'.
Proof. intros Hne. unfold http.Set_. now rewrite lookup_insert_ne. Qed.

(** X9. [ServeHTTP] changes no request header other than Authorization and never
    changes the response header, whether extraction succeeds or not. *)
Theorem ServeHTTP_other_headers (e : AuthConverter) (w : http.World) :
  (forall key : string,
     key <> HeaderName ->
     http.req_Header (ServeHTTP e w) !! key = http.req_Header w !! key)
  /\ http.rw_Header (ServeHTTP e w) = http.rw_Header w.
Proof.
  unfold ServeHTTP.
  destruct (getToken e (http.Get (http.req_Header w) HeaderName)) as [t [err|]];
    cbn; split; try reflexivity.
  intros key Hkey. now apply lookup_Set_other.
Qed.

Lemma ServeHTTP_other_headers_witness :
  let e := test_converter combined in
  let w := {| http.req_Header :=
                http.Set_ (http.Set_ ∅ "Host" "example.org") HeaderName
                  "Basic dXNlcl9sb2dpbjp1c2VyX3Bhc3N3b3Jk";
              http.rw_Header := ∅;
              http.calls := [] |} in
  http.req_Header (ServeHTTP e w) !! "Host" = http.req_Header w !! "Host"
  /\ http.rw_Header (ServeHTTP e w) = http.rw_Header w.
Proof.
  intros e w. destruct (ServeHTTP_other_headers e w) as [Hkeys Hrw].
  split; [apply Hkeys; discriminate | exact Hrw].
Defined.

Lemma Get_absent (h : http.Header) (key : string) :
  h !! key = None -> http.Get h key = "".
Proof. intros H. unfold http.Get. now rewrite H. Qed.

(** X10. On a request without an Authorization header, [ServeHTTP] does nothing
    but call the next handler, whatever the configuration. *)
Theorem ServeHTTP_without_header (e : AuthConverter) (w : http.World) :
  http.req_Header w !! HeaderName = None ->
  ServeHTTP e w = http.ServeHTTP (next e) w.
Proof.
  intros Habs. unfold ServeHTTP. rewrite (Get_absent _ _ Habs).
  rewrite (getToken_without_space e "" eq_refl). reflexivity.
Qed.

Lemma ServeHTTP_without_header_witness :
  let e := test_converter unchanged in
  let w := {| http.req_Header := http.Set_ ∅ "Host" "example.org";
              http.rw_Header := ∅;
              http.calls := [] |} in
  http.req_Header w !! HeaderName = None
  /\ ServeHTTP e w = http.ServeHTTP (next e) w.
Proof.
  intros e w.
  assert (Habs : http.req_Header w !! HeaderName = None)
    by (vm_compute; reflexivity).
  exact (conj Habs (ServeHTTP_without_header e w Habs)).
Defined.

(** ** [ServeHTTP]: passing the request through converters in a row *)

Lemma ServeHTTP_failure (e : AuthConverter) (w : http.World) (err : error) :
  getToken e (http.Get (http.req_Header w) HeaderName) = ("", Some err) ->
  ServeHTTP e w = http.ServeHTTP (next e) w.
Proof. intros H. unfold ServeHTTP. now rewrite H. Qed.

(** X11. When the target type holds no space and differs from the source type, a
    request converted once is left as it is by a second pass through the
    same converter. *)
Theorem ServeHTTP_twice (e : AuthConverter) (w : http.World) (t : string) :
  getToken e (http.Get (http.req_Header w) HeaderName) = (t, None) ->
  has_byte " " (targetType (config e)) = false ->
  targetType (config e) <> sourceType (config e) ->
  http.req_Header (ServeHTTP e (ServeHTTP e w)) = http.req_Header (ServeHTTP e w).
Proof.
  intros Htok Hsp Hne.
  pose proof (ServeHTTP_success_Get e w t Htok) as Hget.
  rewrite (ServeHTTP_failure e (ServeHTTP e w) SchemeMismatch); [reflexivity|].
  rewrite Hget. now apply getToken_other_scheme.
Qed.

Lemma ServeHTTP_twice_witness :
  let e := test_converter combined in
  let w := test_world "Basic dXNlcl9sb2dpbjp1c2VyX3Bhc3N3b3Jk" in
  getToken e (http.Get (http.req_Header w) HeaderName)
  = ("user_loginuser_password", None)
  /\ http.req_Header (ServeHTTP e (ServeHTTP e w)) = http.req_Header (ServeHTTP e w).
Proof.
  intros e w.
  assert (Htok : getToken e (http.Get (http.req_Header w) HeaderName)
                 = ("user_loginuser_password", None)) by (vm_compute; reflexivity).
  refine (conj Htok _).
  apply (ServeHTTP_twice e w _ Htok); [reflexivity | discriminate].
Defined.

(** X12. A converter with source [unchanged] and [encode_token] set, followed by
    one with source [decoded] that maps the target type back to the source
    type, gives back the Authorization header the request came with. *)
Theorem ServeHTTP_encode_then_decode (e1 e2 : AuthConverter) (w : http.World)
    (p : string) :
  tokenSource (config e1) = unchanged -> encodeToken (config e1) = true ->
  tokenSource (config e2) = decoded -> encodeToken (config e2) = false ->
  sourceType (config e2) = targetType (config e1) ->
  targetType (config e2) = sourceType (config e1) ->
  has_byte " " (sourceType (config e1)) = false ->
  has_byte " " (targetType (config e1)) = false ->
  http.Get (http.req_Header w) HeaderName = sourceType (config e1) +:+ " " +:+ p ->
  http.Get (http.req_Header (ServeHTTP e2 (ServeHTTP e1 w))) HeaderName
  = sourceType (config e1) +:+ " " +:+ p.
Proof.
  intros Hts1 Henc1 Hts2 Henc2 Hst2 Htt2 Hsp1 Hsp2 Hw.
  assert (Htok1 : getToken e1 (http.Get (http.req_Header w) HeaderName) = (p, None)).
  { rewrite Hw, getToken_source_scheme by assumption. now rewrite Hts1. }
  pose proof (ServeHTTP_success_Get e1 w p Htok1) as Hget1.
  rewrite Henc1, <- Hst2 in Hget1.
  assert (Htok2 : getToken e2 (http.Get (http.req_Header (ServeHTTP e1 w)) HeaderName)
                  = (p, None)).
  { rewrite Hget1, getToken_source_scheme by (now rewrite Hst2).
    now rewrite Hts2, DecodeString_EncodeToString. }
  rewrite (ServeHTTP_success_Get e2 _ p Htok2). now rewrite Henc2, Htt2.
Qed.

Lemma ServeHTTP_encode_then_decode_witness :
  let e1 := {| next := http.HandlerFunc 0;
               config := {| tokenSource := unchanged; encodeToken := true;
                            sourceType := basic; targetType := bearer |} |} in
  let e2 := {| next := http.HandlerFunc 1;
               config := {| tokenSource := decoded; encodeToken := false;
                            sourceType := bearer; targetType := basic |} |} in
  let w := test_world "Basic any payload" in
  http.Get (http.req_Header (ServeHTTP e2 (ServeHTTP e1 w))) HeaderName
  = "Basic any payload".
Proof.
  intros e1 e2 w.
  exact (ServeHTTP_encode_then_decode e1 e2 w "any payload"
           eq_refl eq_refl eq_refl eq_refl eq_refl eq_refl eq_refl eq_refl eq_refl).
Defined.

(** ** The default configuration, from construction to the rewritten header *)

Lemma getToken_combined_encoded (e : AuthConverter) (u p : string) :
  tokenSource (config e) = combined ->
  sourceType (config e) = "Basic" ->
  has_byte ":" u = false ->
  getToken e ("Basic " +:+ base64.EncodeToString (u +:+ ":" +:+ p))
  = (u +:+ p, None).
Proof.
  intros Hts Hst Hu.
  rewrite (getToken_split_payload e _ u p Hst); try assumption.
  - now rewrite Hts.
  - rewrite Hts. right; right; left; reflexivity.
  - apply DecodeString_EncodeToString.
Qed.

(** X13. The default configuration is accepted by [New], and the converter it
    gives turns ["Basic " + base64(u + ":" + p)], with no colon in [u], into
    ["Bearer " + u + p] and calls the next handler once with that request. *)
Theorem default_converter (next_handler : http.Handler) (w : http.World)
    (u p : string) :
  has_byte ":" u = false ->
  http.Get (http.req_Header w) HeaderName
  = "Basic " +:+ base64.EncodeToString (u +:+ ":" +:+ p) ->
  exists h,
    New next_handler CreateConfig = (Some h, None)
    /\ http.Get (http.req_Header (ServeHTTP h w)) HeaderName = "Bearer " +:+ u +:+ p
    /\ http.calls (ServeHTTP h w)
       = http.calls w
         ++ [http.Call_ServeHTTP next_handler (http.rw_Header w)
               (http.req_Header (ServeHTTP h w))].
Proof.
  intros Hu Hw. eexists. split; [reflexivity|].
  set (h := {| next := next_handler; config := CreateConfig |}).
  assert (Htok : getToken h (http.Get (http.req_Header w) HeaderName)
                 = (u +:+ p, None)).
  { rewrite Hw. now apply getToken_combined_encoded. }
  split; [exact (ServeHTTP_success_Get h w _ Htok)|].
  now rewrite (ServeHTTP_success h w _ Htok).
Qed.

Lemma default_converter_witness :
  let w := test_world ("Basic " +:+ base64.EncodeToString ("user" +:+ ":" +:+ "pa:ss")) in
  has_byte ":" "user" = false
  /\ exists h,
       New (http.HandlerFunc 7) CreateConfig = (Some h, None)
       /\ http.Get (http.req_Header (ServeHTTP h w)) HeaderName
          = "Bearer " +:+ "user" +:+ "pa:ss"
       /\ http.calls (ServeHTTP h w)
          = http.calls w
            ++ [http.Call_ServeHTTP (http.HandlerFunc 7) (http.rw_Header w)
                  (http.req_Header (ServeHTTP h w))].
Proof.
  intros w. refine (conj eq_refl _).
  apply (default_converter (http.HandlerFunc 7) w "user" "pa:ss"); [reflexivity|].
  unfold w, test_world. cbn [http.req_Header]. apply Get_Set.
Defined.

(** ** The first variant: construction, extraction and the request hook *)

Lemma V1_validConfig_recognized (ts : TokenSource) :
  default false (V1.validConfig !! ts) = true <-> In ts V1_recognized_sources.
Proof.
  split.
  - intros H. destruct (decide (In ts V1_recognized_sources)) as [Hin | Hout];
      [exact Hin|]. exfalso. unfold V1.validConfig in H.
    rewrite !lookup_insert_ne, lookup_empty in H
      by (intros <-; apply Hout; cbn; tauto).
    discriminate H.
  - intros [<- | [<- | [<- | [<- | []]]]]; vm_compute; reflexivity.
Qed.

(** X14. In the first variant [New] accepts the four token sources [username],
    [password], [combined] and [unchanged], copying the token source and the
    encoding flag into the converter, and rejects every other value,
    [decoded] included. *)
Theorem V1_New_validates_token_source (next : http.Handler) (cfg : V1.Config) :
  (In (V1.tokenSource cfg) V1_recognized_sources ->
   V1.New next cfg
   = (Some {| V1.next := next;
              V1.ac_tokenSource := V1.tokenSource cfg;
              V1.ac_encodeToken := V1.encodeToken cfg |}, None))
  /\ (~ In (V1.tokenSource cfg) V1_recognized_sources ->
      V1.New next cfg = (None, Some (errors_New "invalid token source"))).
Proof.
  pose proof (V1_validConfig_recognized (V1.tokenSource cfg)) as Hvalid.
  unfold V1.New.
  destruct (default false (V1.validConfig !! V1.tokenSource cfg)); cbn [negb].
  - split; [reflexivity|]. intros Hout. exfalso. apply Hout. now apply Hvalid.
  - split; [|reflexivity]. intros Hin. apply Hvalid in Hin. discriminate Hin.
Qed.

Lemma V1_New_validates_token_source_witness :
  V1.New (http.HandlerFunc 0) V1.CreateConfig
  = (Some {| V1.next := http.HandlerFunc 0; V1.ac_tokenSource := combined;
             V1.ac_encodeToken := false |}, None)
  /\ V1.New (http.HandlerFunc 0)
       {| V1.tokenSource := decoded; V1.encodeToken := false |}
     = (None, Some (errors_New "invalid token source")).
Proof.
  split.
  - apply (proj1 (V1_New_validates_token_source _ V1.CreateConfig)).
    right; right; left; reflexivity.
  - apply (proj2 (V1_New_validates_token_source _ _)).
    cbn. intros [H | [H | [H | [H | []]]]]; discriminate H.
Defined.

Lemma V1_getToken_as_extended (e : V1.AuthConverter) (header : string) :
  V1.ac_tokenSource e <> decoded ->
  V1.getToken e header = getToken (V1_as_extended e) header.
Proof.
  intros Hts. apply String.eqb_neq in Hts.
  unfold V1.getToken, getToken, V1_as_extended. cbn [config next tokenSource sourceType].
  rewrite Hts. change (negb (String.eqb basic basic)) with false.
  reflexivity.
Qed.

(** X15. Unless the token source is [decoded], extraction in the first variant
    gives what the extended variant gives with source type ["Basic"]. *)
Theorem V1_getToken_agrees (e : V1.AuthConverter) (header : string) :
  V1.ac_tokenSource e <> decoded ->
  V1.getToken e header = getToken (V1_as_extended e) header.
Proof.
  intros Hts. apply String.eqb_neq in Hts.
  unfold V1.getToken, getToken, V1_as_extended.
  cbn [config next tokenSource sourceType].
  rewrite Hts. change (negb (String.eqb basic basic)) with false.
  reflexivity.
Qed.

Lemma V1_getToken_agrees_witness :
  let e := {| V1.next := http.HandlerFunc 0; V1.ac_tokenSource := password;
              V1.ac_encodeToken := false |} in
  V1.ac_tokenSource e <> decoded
  /\ V1.getToken e "Basic dXNlcjpwYTpzcw=="
     = getToken (V1_as_extended e) "Basic dXNlcjpwYTpzcw==".
Proof.
  intros e.
  assert (Hne : V1.ac_tokenSource e <> decoded) by discriminate.
  exact (conj Hne (V1_getToken_agrees e _ Hne)).
Defined.

(** X18. In the first variant [ServeHTTP] never changes the request header, changes
    no response header other than Authorization, leaves the response header
    as it was when extraction fails, and calls the next handler once. *)
Theorem V1_ServeHTTP_request_untouched (e : V1.AuthConverter) (w : http.World) :
  http.req_Header (V1.ServeHTTP e w) = http.req_Header w
  /\ (forall key : string,
        key <> HeaderName ->
        http.rw_Header (V1.ServeHTTP e w) !! key = http.rw_Header w !! key)
  /\ (forall err : error,
        (V1.getToken e (http.Get (http.req_Header w) HeaderName)).2 = Some err ->
        http.rw_Header (V1.ServeHTTP e w) = http.rw_Header w)
  /\ http.calls (V1.ServeHTTP e w)
     = http.calls w
       ++ [http.Call_ServeHTTP (V1.next e) (http.rw_Header (V1.ServeHTTP e w))
             (http.req_Header w)].
Proof.
  unfold V1.ServeHTTP.
  destruct (V1.getToken e (http.Get (http.req_Header w) HeaderName)) as [t [err|]];
    cbn; repeat split; try reflexivity.
  - intros key Hkey. now apply lookup_Set_other.
  - intros err Herr. discriminate Herr.
Qed.

Lemma V1_ServeHTTP_request_untouched_witness :
  let e := {| V1.next := http.HandlerFunc 0; V1.ac_tokenSource := password;
              V1.ac_encodeToken := false |} in
  let w := test_world "Bearer YTtkbmdhb3VpcmduYXdvZ2lu" in
  (V1.getToken e (http.Get (http.req_Header w) HeaderName)).2 = Some SchemeMismatch
  /\ http.req_Header (V1.ServeHTTP e w) = http.req_Header w
  /\ http.rw_Header (V1.ServeHTTP e w) !! "Host" = http.rw_Header w !! "Host"
  /\ http.rw_Header (V1.ServeHTTP e w) = http.rw_Header w.
Proof.
  intros e w.
  assert (Herr : (V1.getToken e (http.Get (http.req_Header w) HeaderName)).2
                 = Some SchemeMismatch) by (vm_compute; reflexivity).
  destruct (V1_ServeHTTP_request_untouched e w) as (Hreq & Hkeys & Hfail & _).
  refine (conj Herr (conj Hreq (conj _ (Hfail _ Herr)))).
  apply Hkeys. discriminate.
Defined.

(** X16. In the first variant, with a token source that is not one of its four,
    extraction fails on every header, with the empty token. *)
Theorem V1_getToken_unrecognized_source (e : V1.AuthConverter) (header : string) :
  ~ In (V1.ac_tokenSource e) V1_recognized_sources ->
  exists err, V1.getToken e header = ("", Some err).
Proof.
  intros Hts.
  assert (Hne : forall ts, In ts V1_recognized_sources ->
                           String.eqb (V1.ac_tokenSource e) ts = false).
  { intros ts Hin. apply String.eqb_neq. intros Heq. apply Hts. now rewrite Heq. }
  unfold V1.getToken.
  destruct (strings.SplitN header " " 2) as [|scheme [|payload [|]]]; eauto.
  destruct (negb _); [eauto|].
  rewrite !Hne by (cbn; tauto).
  destruct (base64.DecodeString payload) as [d [c|]]; [eauto|].
  destruct (strings.SplitN d ":" 2) as [|part0 [|part1 [|]]]; eauto.
Qed.

Lemma V1_getToken_unrecognized_source_witness :
  let e := {| V1.next := http.HandlerFunc 0; V1.ac_tokenSource := decoded;
              V1.ac_encodeToken := false |} in
  ~ In (V1.ac_tokenSource e) V1_recognized_sources
  /\ exists err, V1.getToken e "Basic YTtkbmdhb3VpcmduYXdvZ2lu" = ("", Some err).
Proof.
  intros e.
  assert (Hout : ~ In (V1.ac_tokenSource e) V1_recognized_sources).
  { cbn. intros [H | [H | [H | [H | []]]]]; discriminate H. }
  exact (conj Hout (V1_getToken_unrecognized_source e _ Hout)).
Defined.

(** X19. In the first variant the default configuration is accepted by [New], and
    the converter it gives answers ["Basic " + base64(u + ":" + p)], with no
    colon in [u], by setting the response header to ["Bearer " + u + p],
    leaving the request as it was. *)
Theorem V1_default_converter (next_handler : http.Handler) (w : http.World)
    (u p : string) :
  has_byte ":" u = false ->
  http.Get (http.req_Header w) HeaderName
  = "Basic " +:+ base64.EncodeToString (u +:+ ":" +:+ p) ->
  exists h,
    V1.New next_handler V1.CreateConfig = (Some h, None)
    /\ http.Get (http.rw_Header (V1.ServeHTTP h w)) HeaderName
       = "Bearer " +:+ u +:+ p
    /\ http.req_Header (V1.ServeHTTP h w) = http.req_Header w.
Proof.
  intros Hu Hw. eexists. split; [reflexivity|].
  set (h := {| V1.next := next_handler; V1.ac_tokenSource := _;
               V1.ac_encodeToken := _ |}).
  assert (Htok : V1.getToken h (http.Get (http.req_Header w) HeaderName)
                 = (u +:+ p, None)).
  { rewrite V1_getToken_as_extended by discriminate.
    rewrite Hw. now apply getToken_combined_encoded. }
  unfold V1.ServeHTTP. rewrite Htok. cbn.
  split; [apply Get_Set | reflexivity].
Qed.

Lemma V1_default_converter_witness :
  let w := test_world ("Basic " +:+ base64.EncodeToString ("user" +:+ ":" +:+ "pa:ss")) in
  has_byte ":" "user" = false
  /\ exists h,
       V1.New (http.HandlerFunc 7) V1.CreateConfig = (Some h, None)
       /\ http.Get (http.rw_Header (V1.ServeHTTP h w)) HeaderName
          = "Bearer " +:+ "user" +:+ "pa:ss"
       /\ http.req_Header (V1.ServeHTTP h w) = http.req_Header w.
Proof.
  intros w. refine (conj eq_refl _).
  apply (V1_default_converter (http.HandlerFunc 7) w "user" "pa:ss"); [reflexivity|].
  unfold w, test_world. cbn [http.req_Header]. apply Get_Set.
Defined.

Lemma V1_ServeHTTP_sets_response_header_witness :
  let e := {| V1.next := http.HandlerFunc 0; V1.ac_tokenSource := combined;
              V1.ac_encodeToken := true |} in
  let w := test_world "Basic dXNlcl9sb2dpbjp1c2VyX3Bhc3N3b3Jk" in
  V1.getToken e (http.Get (http.req_Header w) HeaderName)
  = ("user_loginuser_password", None)
  /\ http.req_Header (V1.ServeHTTP e w) = http.req_Header w
  /\ http.Get (http.rw_Header (V1.ServeHTTP e w)) HeaderName
     = "Bearer " +:+ base64.EncodeToString "user_loginuser_password".
Proof.
  intros e w.
  assert (Htok : V1.getToken e (http.Get (http.req_Header w) HeaderName)
                 = ("user_loginuser_password", None)) by (vm_compute; reflexivity).
  exact (conj Htok (V1_ServeHTTP_sets_response_header e w _ Htok)).
Defined.
